(** * AgriGenie: the farmer's crop-health assessment page

    A shallow embedding of [src/app/dashboard/farmer/assess/page.tsx]:
    the component state of [FarmerAssess], its three handlers
    ([handleImageSelect], [generateTreatmentPlan], [handleAssess]) and
    what the component computes for its results card.

    The page is TypeScript, but everything it receives from the two
    services is typed [any]; the embedding therefore works on JavaScript
    values as [JSON.parse] produces them, with the language's own
    conversions ([ToBoolean], [ToString], [ToNumber], property access)
    written out.  Numbers are IEEE-754 doubles (Rocq's primitive floats). *)

From Stdlib Require Import ZArith QArith Qabs Lia List Bool Ascii String Floats.
From Stdlib Require Import DecimalString.
Import ListNotations.

Local Open Scope string_scope.
Local Open Scope list_scope.

Set Implicit Arguments.
Set Warnings "-register-all".

(* ================================================================== *)
(** * JavaScript values *)

Module JS.

(** What [response.json()] can resolve to, plus [undefined], which property
    access produces.  An object is its list of own properties. *)
Inductive value : Type :=
| VUndefined
| VNull
| VBool (b : bool)
| VNumber (x : float)
| VString (s : string)
| VArray (elems : list value)
| VObject (props : list (string * value)).

(** The errors this page can see. *)
Inductive js_error : Type :=
| TypeError                  (* property of null/undefined, call of a
                                non-function, failed ToPrimitive, and the
                                rejection of [fetch] on a network failure *)
| SyntaxError                (* [response.json()] on a body that is not JSON *)
| AbortError                 (* any other rejection of [fetch] or of the body *)
| Error (message : string).  (* [new Error(message)] *)

(** Synchronous evaluation: a value or a thrown error. *)
Inductive result (A : Type) : Type :=
| Ok (a : A)
| Throw (e : js_error).
Arguments Ok {A} a.
Arguments Throw {A} e.

Definition rbind {A B} (r : result A) (k : A -> result B) : result B :=
  match r with
  | Ok a => k a
  | Throw e => Throw e
  end.

Fixpoint assoc (key : string) (props : list (string * value)) : option value :=
  match props with
  | [] => None
  | (k, v) :: rest => if String.eqb k key then Some v else assoc key rest
  end.

Definition has_own (key : string) (props : list (string * value)) : bool :=
  match assoc key props with Some _ => true | None => false end.

(** [v.key] for the property names the page reads (none of them is a
    property of [Object.prototype], [Array.prototype] or of a primitive's
    wrapper). *)
Definition get (v : value) (key : string) : result value :=
  match v with
  | VUndefined | VNull => Throw TypeError
  | VObject props =>
      match assoc key props with
      | Some x => Ok x
      | None => Ok VUndefined
      end
  | _ => Ok VUndefined
  end.

(** [ToBoolean]. *)
Definition truthy (v : value) : bool :=
  match v with
  | VUndefined | VNull => false
  | VBool b => b
  | VNumber x => negb (PrimFloat.eqb x 0 || PrimFloat.is_nan x)
  | VString s => negb (String.eqb s "")
  | VArray _ | VObject _ => true
  end.

(** [a.join(sep)] on an array of strings. *)
Fixpoint join (sep : string) (parts : list string) : string :=
  match parts with
  | [] => ""
  | [s] => s
  | s :: rest => s ++ sep ++ join sep rest
  end.

(** [s.split(sep)] for a one-character separator. *)
Fixpoint split_on (sep : ascii) (s : string) : list string :=
  match s with
  | EmptyString => [""]
  | String c rest =>
      if Ascii.eqb c sep then "" :: split_on sep rest
      else match split_on sep rest with
           | [] => [String c ""]
           | hd :: tl => String c hd :: tl
           end
  end.

(** The two conversions between numbers and text that the engine owns
    ([Number::toString] and [StringToNumber]) are left to the engine: the
    page's functions are parameterised by them and every theorem below
    holds whatever they are. *)
Record engine : Type := Engine {
  number_to_string : float -> string;
  string_to_number : string -> float
}.

Section Conversions.

Variable E : engine.

(** [ToString].  A parsed object converts through [Object.prototype.toString]
    unless an own [toString] property (never callable in parsed JSON) hides
    it, in which case ToPrimitive falls through [valueOf] and throws; an
    array converts through [join(",")], whose holes for [null] and
    [undefined] are empty. *)
Fixpoint to_string (v : value) : result string :=
  match v with
  | VUndefined => Ok "undefined"
  | VNull => Ok "null"
  | VBool true => Ok "true"
  | VBool false => Ok "false"
  | VNumber x => Ok (number_to_string E x)
  | VString s => Ok s
  | VArray elems =>
      rbind
        ((fix elems_to_strings (l : list value) : result (list string) :=
            match l with
            | [] => Ok []
            | x :: rest =>
                rbind (match x with
                       | VUndefined | VNull => Ok ""
                       | _ => to_string x
                       end)
                      (fun s => rbind (elems_to_strings rest)
                                      (fun ss => Ok (s :: ss)))
            end) elems)
        (fun ss => Ok (join "," ss))
  | VObject props =>
      if has_own "toString" props then Throw TypeError
      else Ok "[object Object]"
  end.

(** [ToNumber]. *)
Definition to_number (v : value) : result float :=
  match v with
  | VUndefined => Ok PrimFloat.nan
  | VNull => Ok 0%float
  | VBool true => Ok 1%float
  | VBool false => Ok 0%float
  | VNumber x => Ok x
  | VString s => Ok (string_to_number E s)
  | VArray _ | VObject _ =>
      rbind (to_string v) (fun s => Ok (string_to_number E s))
  end.

(** The exact value of a finite double [m * 2^e], times [k], rounded to
    the nearest integer, the larger one on a tie: [floor (k*m*2^e + 1/2)]. *)
Definition round_half_up (k : Z) (m : positive) (e : Z) : Z :=
  match e with
  | Zneg p => (2 * k * Zpos m + 2 ^ Zpos p) / 2 ^ (Zpos p + 1)
  | _ => k * Zpos m * 2 ^ e
  end.

(** [m * 2^e >= 10^21]. *)
Definition at_least_1e21 (m : positive) (e : Z) : bool :=
  match e with
  | Zneg p => (10 ^ 21 * 2 ^ Zpos p <=? Zpos m)%Z
  | _ => (10 ^ 21 <=? Zpos m * 2 ^ e)%Z
  end.

(** The decimal digits of a natural number, ["0"] for zero. *)
Definition digits (n : Z) : string :=
  NilZero.string_of_uint (N.to_uint (Z.to_N n)).

(** Step 10 of [Number.prototype.toFixed] for one fraction digit: [n] as
    digits, padded to two, with the point before the last one. *)
Definition point_one (n : Z) : string :=
  digits (n / 10) ++ "." ++ digits (n mod 10).

(** [x.toFixed(1)]. *)
Definition toFixed1 (x : float) : string :=
  match Prim2SF x with
  | S754_nan => "NaN"
  | S754_infinity false => "Infinity"
  | S754_infinity true => "-Infinity"
  | S754_zero _ => "0.0"
  | S754_finite s m e =>
      (if s then "-" else "") ++
      (if at_least_1e21 m e
       then number_to_string E (PrimFloat.abs x)
       else point_one (round_half_up 10 m e))
  end.

End Conversions.

End JS.

(* ================================================================== *)
(** * Asynchronous computations over the component *)

Module Page.

Import JS.

(** The browser's [File]; its content only matters through what the
    [FileReader] makes of it, which the environment supplies. *)
Record File : Type := { file_name : string; file_size : Z }.

(** [interface AssessmentResult].  Both service-supplied fields hold
    whatever the services sent. *)
Record AssessmentResult : Type := {
  diseases : value;
  treatment_plan : value;
  imageUrl : string
}.

(** The five [useState] cells of [FarmerAssess]. *)
Record component : Type := {
  selectedImage : option File;
  previewUrl : string;
  isLoading : bool;
  isGeneratingTreatment : bool;
  result : option AssessmentResult
}.

(** The initial values of the [useState] calls. *)
Definition initial : component :=
  {| selectedImage := None; previewUrl := ""; isLoading := false;
     isGeneratingTreatment := false; result := None |}.

(** The argument of [toast]. *)
Record toast_message : Type := {
  title : string;
  description : string;
  variant : option string
}.

(** A [fetch] call: URL, headers and the object given to [JSON.stringify]. *)
Record request : Type := {
  url : string;
  headers : list (string * string);
  body : value
}.

(** What the page does that can be observed from outside, in order. *)
Inductive event : Type :=
| Fetch (r : request)
| Toast (t : toast_message)
| ConsoleError (label : string) (e : js_error)
| Render (c : component).       (* the state after a [useState] setter ran *)

Record world : Type := { ui : component; log : list event }.

(** How an awaited computation ends; [Pending] is a promise that never
    settles. *)
Inductive completion (A : Type) : Type :=
| Fulfilled (a : A)
| Rejected (e : js_error)
| Pending.
Arguments Fulfilled {A} a.
Arguments Rejected {A} e.
Arguments Pending {A}.

Definition M (A : Type) : Type := world -> completion A * world.

Definition ret {A} (a : A) : M A := fun w => (Fulfilled a, w).

Definition bind {A B} (m : M A) (k : A -> M B) : M B :=
  fun w =>
    match m w with
    | (Fulfilled a, w') => k a w'
    | (Rejected e, w') => (Rejected e, w')
    | (Pending, w') => (Pending, w')
    end.

Declare Scope js_scope.
Delimit Scope js_scope with js.
Notation "x <- m ;; k" := (bind m (fun x => k))
  (at level 61, m at next level, right associativity) : js_scope.
Notation "m ;; k" := (bind m (fun _ => k))
  (at level 61, right associativity) : js_scope.
Local Open Scope js_scope.
Local Open Scope string_scope.

Definition throw {A} (e : js_error) : M A := fun w => (Rejected e, w).

Definition never {A} : M A := fun w => (Pending, w).

(** A synchronous evaluation inside an async function. *)
Definition lift {A} (r : JS.result A) : M A :=
  match r with
  | Ok a => ret a
  | Throw e => throw e
  end.

(** [try { m } catch (error) { h error }]. *)
Definition try_catch {A} (m : M A) (h : js_error -> M A) : M A :=
  fun w =>
    match m w with
    | (Rejected e, w') => h e w'
    | other => other
    end.

(** [try { m } finally { f }]: [f] runs once [m] has settled, and the
    completion of [m] stands unless [f] itself fails. *)
Definition finally {A} (m : M A) (f : M unit) : M A :=
  fun w =>
    match m w with
    | (Pending, w') => (Pending, w')
    | (c, w') =>
        match f w' with
        | (Fulfilled _, w'') => (c, w'')
        | (Rejected e, w'') => (Rejected e, w'')
        | (Pending, w'') => (Pending, w'')
        end
    end.

Definition emit (e : event) : M unit :=
  fun w => (Fulfilled tt, {| ui := ui w; log := (log w ++ [e])%list |}).

Definition toast (t : toast_message) : M unit := emit (Toast t).

Definition console_error (label : string) (e : js_error) : M unit :=
  emit (ConsoleError label e).

(** A [useState] setter given an updater; the new state is recorded. *)
Definition update (f : component -> component) : M unit :=
  fun w => (Fulfilled tt,
            {| ui := f (ui w); log := (log w ++ [Render (f (ui w))])%list |}).

Definition with_selectedImage (x : option File) (c : component) : component :=
  {| selectedImage := x; previewUrl := previewUrl c;
     isLoading := isLoading c;
     isGeneratingTreatment := isGeneratingTreatment c;
     result := result c |}.

Definition with_previewUrl (x : string) (c : component) : component :=
  {| selectedImage := selectedImage c; previewUrl := x;
     isLoading := isLoading c;
     isGeneratingTreatment := isGeneratingTreatment c;
     result := result c |}.

Definition with_isLoading (x : bool) (c : component) : component :=
  {| selectedImage := selectedImage c; previewUrl := previewUrl c;
     isLoading := x;
     isGeneratingTreatment := isGeneratingTreatment c;
     result := result c |}.

Definition with_isGeneratingTreatment (x : bool) (c : component) : component :=
  {| selectedImage := selectedImage c; previewUrl := previewUrl c;
     isLoading := isLoading c;
     isGeneratingTreatment := x;
     result := result c |}.

Definition with_result (x : option AssessmentResult) (c : component)
  : component :=
  {| selectedImage := selectedImage c; previewUrl := previewUrl c;
     isLoading := isLoading c;
     isGeneratingTreatment := isGeneratingTreatment c;
     result := x |}.

Definition setSelectedImage (x : option File) : M unit :=
  update (with_selectedImage x).

Definition setPreviewUrl (x : string) : M unit :=
  update (with_previewUrl x).

Definition setIsLoading (x : bool) : M unit :=
  update (with_isLoading x).

Definition setIsGeneratingTreatment (x : bool) : M unit :=
  update (with_isGeneratingTreatment x).

(** [setResult(prev => f prev)]; [setResult(x)] is [setResult (fun _ => x)]. *)
Definition setResult
    (f : option AssessmentResult -> option AssessmentResult) : M unit :=
  update (fun c => with_result (f (result c)) c).

(** ** The network *)

Inductive json_outcome : Type :=
| JsonRejects (e : js_error)     (* [response.json()] rejects *)
| JsonResolves (data : value)
| JsonHangs.                     (* the body never completes *)

Record response : Type := { ok : bool; json : json_outcome }.

Inductive fetch_outcome : Type :=
| FetchRejects (e : js_error)    (* the call itself fails *)
| FetchResolves (r : response)
| FetchHangs.                    (* no answer ever comes: the page sets no
                                    timeout and passes no abort signal *)

(** [await fetch(...)]: the request goes out, then the outcome decides. *)
Definition fetch (r : request) (o : fetch_outcome) : M response :=
  emit (Fetch r) ;;
  match o with
  | FetchRejects e => throw e
  | FetchResolves resp => ret resp
  | FetchHangs => never
  end.

(** [await response.json()]. *)
Definition response_json (r : response) : M value :=
  match json r with
  | JsonRejects e => throw e
  | JsonResolves data => ret data
  | JsonHangs => never
  end.

(** ** The handlers *)

(** What one change event of the file input carries: [e.target.files], and
    the URL that [URL.createObjectURL] hands out during this call. *)
Record change_event : Type := {
  files : option (list File);
  object_url : string
}.

(** [handleImageSelect]. *)
Definition handleImageSelect (e : change_event) : M unit :=
  let file := match files e with
              | Some (f :: _) => Some f
              | _ => None
              end in
  match file with
  | Some f =>
      setSelectedImage (Some f) ;;
      setPreviewUrl (object_url e) ;;
      setResult (fun _ => None)
  | None => ret tt
  end.

Definition nl : string := String (ascii_of_nat 10) "".

(** The plan returned from the [catch] block of [generateTreatmentPlan]. *)
Definition fallback_plan : value :=
  VObject
    [ ("immediate_steps",
       VArray [ VString "Isolate affected plants to prevent spread";
                VString "Remove and destroy severely infected parts";
                VString "Monitor plant health daily" ]);
      ("long_term_prevention",
       VArray [ VString "Maintain proper plant spacing for air circulation";
                VString "Follow recommended watering practices";
                VString "Regular inspection of plants" ]);
      ("organic_alternatives",
       VArray [ VString "Use neem oil solution";
                VString "Apply baking soda spray";
                VString "Try garlic-based natural fungicide" ]);
      ("chemical_solutions",
       VArray [ VString "Consult with a local agricultural expert for specific chemical treatments";
                VString "Follow safety guidelines when using chemical treatments" ]) ].

(** The plan [handleAssess] stores with the diagnosis. *)
Definition pending_plan : value :=
  VObject [ ("immediate_steps", VArray []);
            ("long_term_prevention", VArray []);
            ("organic_alternatives", VArray []);
            ("chemical_solutions", VArray []) ].

Fixpoint map_result {A B} (f : A -> JS.result B) (l : list A)
  : JS.result (list B) :=
  match l with
  | [] => Ok []
  | x :: rest =>
      rbind (f x) (fun y => rbind (map_result f rest) (fun ys => Ok (y :: ys)))
  end.

(** [v.map(f)]: only an array has a callable [map]. *)
Definition array_map {B} (f : value -> JS.result B) (v : value)
  : JS.result (list B) :=
  match v with
  | VArray elems => map_result f elems
  | _ => Throw TypeError
  end.

Section Handlers.

Variable E : engine.

(** [(p * 100).toFixed(1)] for a property value [p]. *)
Definition percent (p : value) : JS.result string :=
  rbind (to_number E p) (fun x => Ok (toFixed1 E (x * 100)%float)).

(** The callback of [diseases.map] in the prompt:
    [`${d.name} (${(d.probability * 100).toFixed(1)}% confidence)`]. *)
Definition describe (d : value) : JS.result string :=
  rbind (get d "name") (fun name =>
  rbind (to_string E name) (fun name_text =>
  rbind (get d "probability") (fun p =>
  rbind (percent p) (fun pct =>
  Ok (name_text ++ " (" ++ pct ++ "% confidence)"))))).

(** The text of the confidence [<span>] of the results view:
    [{(disease.probability * 100).toFixed(1)}% confidence]. *)
Definition confidence_label (disease : value) : JS.result string :=
  rbind (get disease "probability") (fun p =>
  rbind (percent p) (fun pct =>
  Ok (pct ++ "% confidence"))).

(** The template literal of the prompt around the joined descriptions. *)
Definition prompt_of (descriptions : list string) : string :=
  "Act as a plant pathologist. For these detected diseases: "
  ++ join ", " descriptions ++ ". " ++ nl
  ++ "        Provide:" ++ nl
  ++ "        1. Immediate treatment steps" ++ nl
  ++ "        2. Long-term prevention strategies" ++ nl
  ++ "        3. Organic alternatives" ++ nl
  ++ "        4. Chemical solutions (if necessary)" ++ nl
  ++ "        Format as JSON with markdown formatting in descriptions.".

Definition generation_request (diseases : value) (prompt : string) : request :=
  {| url := "/api/generate-treatment";
     headers := [("Content-Type", "application/json")];
     body := VObject [("diseases", diseases); ("prompt", VString prompt)] |}.

(** The validation of the response structure: [true] when the condition
    of the [if] holds, that is when some field is falsy. *)
Definition plan_invalid (data : value) : JS.result bool :=
  rbind (get data "immediate_steps") (fun a =>
  if negb (truthy a) then Ok true else
  rbind (get data "long_term_prevention") (fun b =>
  if negb (truthy b) then Ok true else
  rbind (get data "organic_alternatives") (fun c =>
  if negb (truthy c) then Ok true else
  rbind (get data "chemical_solutions") (fun d =>
  Ok (negb (truthy d)))))).

(** [new Error(errorData.details || 'Failed to generate treatment plan')]. *)
Definition generation_error (errorData : value) : JS.result js_error :=
  rbind (get errorData "details") (fun details =>
  rbind (to_string E (if truthy details then details
                      else VString "Failed to generate treatment plan"))
        (fun message => Ok (Error message))).

(** [generateTreatmentPlan], given how the generation service answers. *)
Definition generateTreatmentPlan (generation : fetch_outcome)
    (diseases : value) : M value :=
  try_catch
    (descriptions <- lift (array_map describe diseases) ;;
     let prompt := prompt_of descriptions in
     response <- fetch (generation_request diseases prompt) generation ;;
     (if negb (ok response) then
        errorData <- response_json response ;;
        error <- lift (generation_error errorData) ;;
        throw error
      else ret tt) ;;
     data <- response_json response ;;
     invalid <- lift (plan_invalid data) ;;
     (if invalid then throw (Error "Invalid treatment plan format")
      else ret tt) ;;
     ret data)
    (fun error =>
       console_error "Error generating treatment plan:" error ;;
       ret fallback_plan).

(** What surrounds one run of [handleAssess]. *)
Record environment : Type := {
  api_key : option string;      (* NEXT_PUBLIC_CROP_HEALTH_API_KEY *)
  reader_result : option string;(* [reader.result] at [loadend]: the data
                                   URL, or [null] when the read failed *)
  diagnosis : fetch_outcome;
  generation : fetch_outcome
}.

(** The promise around the [FileReader].  [base64.split(',')[1]] is
    resolved; on a failed read [reader.result] is [null], the [onloadend]
    callback throws and the promise is never settled. *)
Definition read_base64 (env : environment) : M (option string) :=
  match reader_result env with
  | Some base64 => ret (nth_error (split_on "," base64) 1)
  | None => never
  end.

Definition diagnosis_request (env : environment)
    (base64Image : option string) : request :=
  {| url := "https://api.plant.id/v2/health_assessment";
     headers :=
       [ ("Content-Type", "application/json");
         ("Api-Key", match api_key env with
                     | Some k => k       (* [k || ''] is [k], also for [''] *)
                     | None => ""
                     end) ];
     body :=
       VObject
         [ ("images",
            VArray [ VString ("data:image/jpeg;base64," ++
                              match base64Image with
                              | Some b => b
                              | None => "undefined"
                              end) ]);
           ("organs", VArray [VString "leaf"; VString "flower"]);
           ("health_assessment", VBool true);
           ("details", VArray [ VString "disease"; VString "description";
                                VString "treatment" ]) ] |}.

(** [data.health_assessment.diseases]. *)
Definition diagnosed_diseases (data : value) : JS.result value :=
  rbind (get data "health_assessment") (fun h => get h "diseases").

Definition with_plan (plan : value) (prev : option AssessmentResult)
  : option AssessmentResult :=
  match prev with
  | Some r => Some {| diseases := diseases r; treatment_plan := plan;
                      imageUrl := imageUrl r |}
  | None => None
  end.

Definition no_image_toast : toast_message :=
  {| title := "No image selected";
     description := "Please select an image to assess";
     variant := Some "destructive" |}.

Definition treatment_failed_toast : toast_message :=
  {| title := "Treatment Plan Generation Failed";
     description := "We couldn't generate a treatment plan, but you can still see the disease diagnosis.";
     variant := Some "destructive" |}.

Definition assessment_complete_toast : toast_message :=
  {| title := "Assessment Complete";
     description := "Plant health assessment has been completed successfully";
     variant := None |}.

Definition assessment_failed_toast : toast_message :=
  {| title := "Assessment Failed";
     description := "Failed to assess plant health. Please try again.";
     variant := Some "destructive" |}.

(** [handleAssess].  [selectedImage] and [previewUrl] are the values of the
    render in which the handler was created, that is the state it starts
    from. *)
Definition handleAssess (env : environment) : M unit :=
  fun w0 =>
  let captured := ui w0 in
  (match selectedImage captured with
   | None =>
       toast no_image_toast
   | Some _ =>
       setIsLoading true ;;
       finally
         (try_catch
            (base64Image <- read_base64 env ;;
             response <- fetch (diagnosis_request env base64Image)
                               (diagnosis env) ;;
             (if negb (ok response)
              then throw (Error "Failed to assess plant health")
              else ret tt) ;;
             data <- response_json response ;;
             found <- lift (diagnosed_diseases data) ;;
             setResult (fun _ =>
               Some {| diseases := found; treatment_plan := pending_plan;
                       imageUrl := previewUrl captured |}) ;;
             setIsGeneratingTreatment true ;;
             finally
               (try_catch
                  (arg <- lift (diagnosed_diseases data) ;;
                   treatmentPlan <- generateTreatmentPlan (generation env) arg ;;
                   setResult (with_plan treatmentPlan))
                  (fun error =>
                     console_error "Error generating treatment plan:" error ;;
                     toast treatment_failed_toast))
               (setIsGeneratingTreatment false) ;;
             toast assessment_complete_toast)
            (fun error =>
               console_error "Error assessing plant health:" error ;;
               toast assessment_failed_toast))
         (setIsLoading false)
   end) w0.

(** ** The page as a transition system *)

(** [disabled={isLoading}] on the file input. *)
Definition input_disabled (c : component) : bool := isLoading c.

(** [disabled={!selectedImage || isLoading}] on the button. *)
Definition button_disabled (c : component) : bool :=
  match selectedImage c with
  | None => true
  | Some _ => isLoading c
  end.

Definition run {A} (m : M A) (c : component) : completion A * world :=
  m {| ui := c; log := [] |}.

(** The states the page shows while or after [m] runs from [c]. *)
Definition shows {A} (m : M A) (c c' : component) : Prop :=
  In (Render c') (log (snd (run m c))).

(** One user action, with every state it makes the page go through. *)
Inductive step : component -> component -> Prop :=
| step_select (e : change_event) (c c' : component) :
    input_disabled c = false ->
    shows (handleImageSelect e) c c' ->
    step c c'
| step_assess (env : environment) (c c' : component) :
    button_disabled c = false ->
    shows (handleAssess env) c c' ->
    step c c'.

Inductive reachable : component -> Prop :=
| reach_initial : reachable initial
| reach_step (c c' : component) : reachable c -> step c c' -> reachable c'.

End Handlers.

Arguments prompt_of : simpl never.

(** ** The results card *)

(** What [FarmerAssess] hands to React for the right-hand card, as data.
    Children are kept as the values they are: what React makes of a child
    is React's business. *)

(** [{disease.description && (<p>...</p>)}]: the paragraph, or the falsy
    value itself. *)
Inductive description_slot : Type :=
| Paragraph (text : value)
| Bare (v : value).

(** One [<div key={index}>] of the Diseases tab. *)
Record disease_row : Type := {
  row_name : value;               (* the child of the first [<span>] *)
  row_confidence : string;        (* the text of the second [<span>] *)
  row_progress : float;           (* [<Progress value=...>] *)
  row_description : description_slot
}.

(** One heading of the Treatment Plan tab with the children of its
    [<li>]s. *)
Record plan_section : Type := {
  heading : string;
  items : list value
}.

Inductive treatment_view : Type :=
| Skeleton                               (* the pulsing placeholders *)
| Sections (shown : list plan_section).

Inductive card : Type :=
| HowItWorks
| Results (rows : list disease_row) (treatment : treatment_view).

Section Rendering.

Variable E : engine.

(** The callback of [result.diseases.map] in the Diseases tab. *)
Definition disease_row_of (disease : value) : JS.result disease_row :=
  rbind (get disease "name") (fun name =>
  rbind (confidence_label E disease) (fun label =>
  rbind (get disease "probability") (fun p =>
  rbind (to_number E p) (fun x =>
  rbind (get disease "description") (fun description =>
  Ok {| row_name := name;
        row_confidence := label;
        row_progress := (x * 100)%float;
        row_description := if truthy description
                           then Paragraph description
                           else Bare description |}))))).

(** [plan.field.map((step, index) => <li key={index}>{step}</li>)] under
    its heading. *)
Definition section_of (plan : value) (title field : string)
  : JS.result plan_section :=
  rbind (get plan field) (fun list =>
  rbind (array_map (fun step => Ok step) list) (fun steps =>
  Ok {| heading := title; items := steps |})).

(** [v.length > 0]: an array and a string have a length of their own; an
    object has the own property, if any; nothing else has one, and
    [undefined > 0] is false. *)
Definition has_items (v : value) : JS.result bool :=
  match v with
  | VUndefined | VNull => Throw TypeError
  | VArray elems => Ok (match elems with [] => false | _ => true end)
  | VString s => Ok (negb (String.eqb s ""))
  | VObject _ =>
      rbind (get v "length") (fun n =>
      rbind (to_number E n) (fun x => Ok (PrimFloat.ltb 0 x)))
  | _ => Ok false
  end.

(** The Treatment Plan tab outside generation. *)
Definition treatment_sections (plan : value) : JS.result (list plan_section) :=
  rbind (section_of plan "Immediate Steps" "immediate_steps") (fun s1 =>
  rbind (section_of plan "Long-term Prevention" "long_term_prevention")
        (fun s2 =>
  rbind (section_of plan "Organic Alternatives" "organic_alternatives")
        (fun s3 =>
  rbind (get plan "chemical_solutions") (fun chemical =>
  rbind (has_items chemical) (fun some =>
  if some then
    rbind (section_of plan "Chemical Solutions" "chemical_solutions")
          (fun s4 => Ok [s1; s2; s3; s4])
  else Ok [s1; s2; s3]))))).

(** The card on the right: [{result ? (...) : (...)}]. *)
Definition render_card (c : component) : JS.result card :=
  match result c with
  | None => Ok HowItWorks
  | Some r =>
      rbind (array_map disease_row_of (diseases r)) (fun rows =>
      if isGeneratingTreatment c then Ok (Results rows Skeleton)
      else rbind (treatment_sections (treatment_plan r)) (fun shown =>
           Ok (Results rows (Sections shown))))
  end.

End Rendering.

(** ** Vocabulary of the properties *)

(** The four fields [generateTreatmentPlan] validates. *)
Definition plan_fields : list string :=
  [ "immediate_steps"; "long_term_prevention"; "organic_alternatives";
    "chemical_solutions" ].

(** [data] has no own property [field] (nothing but an object has one). *)
Definition lacks (data : value) (field : string) : bool :=
  match data with
  | VObject props => negb (has_own field props)
  | _ => true
  end.

Definition field_empty (plan : value) (field : string) : bool :=
  match get plan field with
  | Ok (VArray []) => true
  | _ => false
  end.

Definition field_populated (plan : value) (field : string) : bool :=
  match get plan field with
  | Ok (VArray (_ :: _)) => true
  | _ => false
  end.

Definition all_empty (plan : value) : bool :=
  forallb (field_empty plan) plan_fields.

Definition all_populated (plan : value) : bool :=
  forallb (field_populated plan) plan_fields.

(** Every validated field is there and truthy: what the [if] of
    [generateTreatmentPlan] lets through. *)
Definition all_present (plan : value) : Prop :=
  forall field, In field plan_fields ->
    exists v, get plan field = Ok v /\ truthy v = true.

Definition is_render (e : event) : bool :=
  match e with Render _ => true | _ => false end.

(** The [fetch] calls of a log, in the order they were issued. *)
Definition requests (l : list event) : list request :=
  flat_map (fun e => match e with Fetch r => [r] | _ => [] end) l.

(** The toasts of a log, in the order they were shown. *)
Definition toasts (l : list event) : list toast_message :=
  flat_map (fun e => match e with Toast t => [t] | _ => [] end) l.

(** The generation service answered [plan] and it passed validation. *)
Definition validated (g : fetch_outcome) (plan : value) : Prop :=
  exists r, g = FetchResolves r /\ ok r = true /\
            json r = JsonResolves plan /\ plan_invalid plan = Ok false.

(** The awaited calls come back: [fetch] resolves or rejects, and so does
    [response.json()] on what it resolved to. *)
Definition settles (o : fetch_outcome) : bool :=
  match o with
  | FetchRejects _ => true
  | FetchResolves r =>
      match json r with
      | JsonHangs => false
      | _ => true
      end
  | FetchHangs => false
  end.

(** The generation call itself fails. *)
Definition call_fails (g : fetch_outcome) : Prop :=
  exists e, g = FetchRejects e.

(** The generation service answers with data that lack one of the four
    fields. *)
Definition response_lacks_field (g : fetch_outcome) : Prop :=
  exists r data field,
    g = FetchResolves r /\ json r = JsonResolves data /\
    In field plan_fields /\ lacks data field = true.

(** What the diagnosis step of [handleAssess] delivers: the disease list,
    or the error that takes the handler to its outer [catch], or nothing
    ever when the awaited call or body never comes back. *)
Definition diagnosis_result (env : environment) : completion value :=
  match diagnosis env with
  | FetchRejects e => Rejected e
  | FetchResolves r =>
      if ok r then
        match json r with
        | JsonRejects e => Rejected e
        | JsonResolves data =>
            match diagnosed_diseases data with
            | Ok found => Fulfilled found
            | Throw e => Rejected e
            end
        | JsonHangs => Pending
        end
      else Rejected (Error "Failed to assess plant health")
  | FetchHangs => Pending
  end.

(** The diagnostic service answered with a successful response. *)
Definition diagnosis_succeeded (env : environment) : Prop :=
  exists r, diagnosis env = FetchResolves r /\ ok r = true.

(** The diagnostic call fails or its response is not a success. *)
Definition diagnosis_unsuccessful (env : environment) : Prop :=
  (exists e, diagnosis env = FetchRejects e) \/
  (exists r, diagnosis env = FetchResolves r /\ ok r = false).

(** [base64.split(',')[1]]. *)
Definition base64_of (dataUrl : string) : option string :=
  nth_error (split_on "," dataUrl) 1.

(** One run of [generateTreatmentPlan]: it is fulfilled with [plan],
    leaves the component alone and adds the events [evs]. *)
Definition generation_outcome (E : engine) (g : fetch_outcome)
    (ds plan : value) (evs : list event) : Prop :=
  (forall w, generateTreatmentPlan E g ds w
      = (Fulfilled plan, {| ui := ui w; log := (log w ++ evs)%list |}))
  /\ filter is_render evs = []
  /\ toasts evs = []
  /\ (plan = fallback_plan \/ validated g plan)
  /\ ((exists e, array_map (describe E) ds = Throw e /\ requests evs = []) \/
      (exists descriptions,
         array_map (describe E) ds = Ok descriptions /\
         requests evs = [generation_request ds (prompt_of descriptions)])).

(** One run of [generateTreatmentPlan] that stays pending: the prompt was
    built and the request sent, and the awaited call never comes back. *)
Definition generation_pending (E : engine) (g : fetch_outcome)
    (ds : value) (evs : list event) : Prop :=
  (forall w, generateTreatmentPlan E g ds w
      = (Pending, {| ui := ui w; log := (log w ++ evs)%list |}))
  /\ settles g = false
  /\ exists descriptions,
       array_map (describe E) ds = Ok descriptions /\
       evs = [Fetch (generation_request ds (prompt_of descriptions))].

(** The six ways a run of [handleAssess] from [c] can go, each with its
    whole log. *)
Inductive assess_run (E : engine) (env : environment) (c : component)
  : completion unit * world -> Prop :=
| run_no_image :
    selectedImage c = None ->
    assess_run E env c
      (Fulfilled tt, {| ui := c; log := [Toast no_image_toast] |})
| run_unread :
    selectedImage c <> None ->
    reader_result env = None ->
    assess_run E env c
      (Pending, {| ui := with_isLoading true c;
                   log := [Render (with_isLoading true c)] |})
| run_undiagnosed (dataUrl : string) (err : js_error) :
    selectedImage c <> None ->
    reader_result env = Some dataUrl ->
    diagnosis_result env = Rejected err ->
    assess_run E env c
      (Fulfilled tt,
       {| ui := with_isLoading false (with_isLoading true c);
          log := [ Render (with_isLoading true c);
                   Fetch (diagnosis_request env (base64_of dataUrl));
                   ConsoleError "Error assessing plant health:" err;
                   Toast assessment_failed_toast;
                   Render (with_isLoading false (with_isLoading true c)) ] |})
| run_diagnosed (dataUrl : string) (found plan : value) (evs : list event) :
    selectedImage c <> None ->
    reader_result env = Some dataUrl ->
    diagnosis_result env = Fulfilled found ->
    generation_outcome E (generation env) found plan evs ->
    let shown := {| diseases := found; treatment_plan := pending_plan;
                    imageUrl := previewUrl c |} in
    let final := {| diseases := found; treatment_plan := plan;
                    imageUrl := previewUrl c |} in
    let diagnosed := with_result (Some shown) (with_isLoading true c) in
    let planned := with_result (Some final) (with_isLoading true c) in
    assess_run E env c
      (Fulfilled tt,
       {| ui := with_isLoading false
                  (with_isGeneratingTreatment false planned);
          log := ([ Render (with_isLoading true c);
                    Fetch (diagnosis_request env (base64_of dataUrl));
                    Render diagnosed;
                    Render (with_isGeneratingTreatment true diagnosed) ]
                  ++ evs ++
                  [ Render (with_isGeneratingTreatment true planned);
                    Render (with_isGeneratingTreatment false planned);
                    Toast assessment_complete_toast;
                    Render (with_isLoading false
                              (with_isGeneratingTreatment false planned)) ]
                 )%list |})
| run_unanswered (dataUrl : string) :
    selectedImage c <> None ->
    reader_result env = Some dataUrl ->
    diagnosis_result env = Pending ->
    assess_run E env c
      (Pending,
       {| ui := with_isLoading true c;
          log := [ Render (with_isLoading true c);
                   Fetch (diagnosis_request env (base64_of dataUrl)) ] |})
| run_unplanned (dataUrl : string) (found : value) (evs : list event) :
    selectedImage c <> None ->
    reader_result env = Some dataUrl ->
    diagnosis_result env = Fulfilled found ->
    generation_pending E (generation env) found evs ->
    let shown := {| diseases := found; treatment_plan := pending_plan;
                    imageUrl := previewUrl c |} in
    let diagnosed := with_result (Some shown) (with_isLoading true c) in
    assess_run E env c
      (Pending,
       {| ui := with_isGeneratingTreatment true diagnosed;
          log := ([ Render (with_isLoading true c);
                    Fetch (diagnosis_request env (base64_of dataUrl));
                    Render diagnosed;
                    Render (with_isGeneratingTreatment true diagnosed) ]
                  ++ evs)%list |}).

(** The component once [m], started from [c], has run. *)
Definition after {A} (m : M A) (c : component) : component :=
  ui (snd (run m c)).

(** What holds of the page between two user actions: nothing is loading,
    and a stored result belongs to the image that is selected and
    previewed. *)
Definition at_rest (c : component) : Prop :=
  isLoading c = false /\ isGeneratingTreatment c = false /\
  forall r, result c = Some r ->
            imageUrl r = previewUrl c /\ selectedImage c <> None.

(** Some character of [s] is a comma. *)
Fixpoint has_comma (s : string) : bool :=
  match s with
  | EmptyString => false
  | String c rest => Ascii.eqb c "," || has_comma rest
  end.

(** The value is an array. *)
Definition is_array (v : value) : bool :=
  match v with VArray _ => true | _ => false end.

(** What a stored plan can be. *)
Definition plan_settled (plan : value) : Prop :=
  plan = pending_plan \/ plan = fallback_plan \/ plan_invalid plan = Ok false.

Definition plans_settled (c : component) : Prop :=
  forall r, result c = Some r -> plan_settled (treatment_plan r).

(** A probability in [0,1], compared as doubles are. *)
Definition in_unit_interval (p : float) : Prop :=
  PrimFloat.leb 0 p = true /\ PrimFloat.leb p 1 = true.

(** The exact value of a double: [m * 2^e] as a fraction. *)
Definition exact (f : spec_float) : Q :=
  match f with
  | S754_finite s m e =>
      let v := match e with
               | Zneg k => Zpos m # (2 ^ k)%positive
               | _ => inject_Z (Zpos m * 2 ^ e)
               end in
      if s then Qopp v else v
  | _ => 0%Q
  end.

Definition is_digit (c : ascii) : bool :=
  (48 <=? nat_of_ascii c)%nat && (nat_of_ascii c <=? 57)%nat.

Definition all_digits (s : string) : bool :=
  forallb is_digit (list_ascii_of_string s).

(** ** Sample data *)

Definition leaf_photo : File := {| file_name := "leaf.jpg"; file_size := 2048 |}.

Definition other_photo : File := {| file_name := "stem.png"; file_size := 512 |}.

(** The page once [leaf_photo] has been chosen. *)
Definition image_selected : component :=
  {| selectedImage := Some leaf_photo; previewUrl := "blob:leaf";
     isLoading := false; isGeneratingTreatment := false; result := None |}.

Definition rust : value :=
  VObject [("name", VString "Rust"); ("probability", VNumber 0.5)].

Definition diagnosis_of (found : list value) : fetch_outcome :=
  FetchResolves
    {| ok := true;
       json := JsonResolves
                 (VObject [("health_assessment",
                            VObject [("diseases", VArray found)])]) |}.

(** A plan that passes validation with nothing chemical to recommend. *)
Definition organic_only_plan : value :=
  VObject [ ("immediate_steps", VArray [VString "Prune the rusted leaves"]);
            ("long_term_prevention", VArray [VString "Water at the base"]);
            ("organic_alternatives", VArray [VString "Sulfur dust"]);
            ("chemical_solutions", VArray []) ].

Definition environment_of (d g : fetch_outcome) : environment :=
  {| api_key := Some "key";
     reader_result := Some "data:image/jpeg;base64,QUJD";
     diagnosis := d;
     generation := g |}.

(** The diagnostic service refuses the request. *)
Definition refused_diagnosis : environment :=
  environment_of
    (FetchResolves {| ok := false; json := JsonRejects SyntaxError |})
    (FetchRejects TypeError).

(** No disease found, and a plan that passes validation. *)
Definition healthy_plant : environment :=
  environment_of (diagnosis_of [])
    (FetchResolves {| ok := true; json := JsonResolves organic_only_plan |}).

(** One disease found, and a plan that passes validation. *)
Definition rusted_plant : environment :=
  environment_of (diagnosis_of [rust])
    (FetchResolves {| ok := true; json := JsonResolves organic_only_plan |}).

(** One disease at confidence 0.5, generation service unreachable. *)
Definition unreachable_generation : environment :=
  environment_of (diagnosis_of [rust]) (FetchRejects TypeError).

(** The double nearest to 0.823. *)
Definition p0823 : float := 0x1.a5604189374bcp-1%float.

Definition blight : value :=
  VObject [("name", VString "Blight"); ("probability", VNumber p0823)].

(** A completed assessment of [leaf_photo]. *)
Definition assessed : component :=
  {| selectedImage := Some leaf_photo; previewUrl := "blob:leaf";
     isLoading := false; isGeneratingTreatment := false;
     result := Some {| diseases := VArray [rust];
                       treatment_plan := organic_only_plan;
                       imageUrl := "blob:leaf" |} |}.

End Page.

Import JS Page.

Local Open Scope string_scope.

(* ================================================================== *)
(** * Properties *)

(** ** [generateTreatmentPlan] *)

Ltac settle_generation :=
  split;
  [ intro; cbn; rewrite <- ?app_assoc; reflexivity
  | cbn; repeat split; eauto 6 ].

Lemma generateTreatmentPlan_spec E g ds :
  (exists plan evs, generation_outcome E g ds plan evs)
  \/ (exists evs, generation_pending E g ds evs).
Proof.
  unfold generation_outcome, generation_pending, generateTreatmentPlan,
    try_catch, bind, lift.
  destruct (array_map (describe E) ds) as [descs|e] eqn:Hmap; cbn.
  { unfold fetch, bind, emit, response_json, never; cbn.
    destruct g as [e|[okr j]|]; cbn.
    - left. eexists _, [_; _]. settle_generation.
    - destruct okr, j as [e|data|]; cbn.
      + left. eexists _, [_; _]. settle_generation.
      + destruct (plan_invalid data) as [[|]|e] eqn:Hv; cbn.
        * left. eexists _, [_; _]. settle_generation.
        * left. eexists _, [_]. settle_generation.
          right. eexists; repeat split; eauto.
        * left. eexists _, [_; _]. settle_generation.
      + right. eexists. split; [intro; reflexivity|]. split; eauto.
      + left. eexists _, [_; _]. settle_generation.
      + left. destruct (generation_error E data) as [err|err]; cbn;
          eexists _, [_; _]; settle_generation.
      + right. eexists. split; [intro; reflexivity|]. split; eauto.
    - right. eexists. split; [intro; reflexivity|]. split; eauto. }
  left. exists fallback_plan, [ConsoleError "Error generating treatment plan:" e].
  settle_generation.
Qed.

(** A field the data lack reads as [undefined], or the read throws. *)
Lemma get_lacking data field :
  lacks data field = true ->
  get data field = Ok VUndefined \/ get data field = Throw TypeError.
Proof.
  destruct data; cbn; auto.
  unfold has_own. destruct (assoc field props); cbn; auto; discriminate.
Qed.

(** Validation tells nothing about a value that throws on the first read,
    and reads every field of one that does not. *)
Lemma plan_invalid_false data :
  plan_invalid data = Ok false -> all_present data.
Proof.
  unfold plan_invalid, all_present, plan_fields.
  destruct (get data "immediate_steps") as [a|] eqn:Ha; cbn; [|discriminate].
  destruct (truthy a) eqn:Ta; cbn; [|discriminate].
  destruct (get data "long_term_prevention") as [b|] eqn:Hb; cbn; [|discriminate].
  destruct (truthy b) eqn:Tb; cbn; [|discriminate].
  destruct (get data "organic_alternatives") as [c|] eqn:Hc; cbn; [|discriminate].
  destruct (truthy c) eqn:Tc; cbn; [|discriminate].
  destruct (get data "chemical_solutions") as [d|] eqn:Hd; cbn; [|discriminate].
  destruct (truthy d) eqn:Td; cbn; [|discriminate].
  intros _ field [<-|[<-|[<-|[<-|[]]]]]; eauto.
Qed.

Lemma lacking_is_invalid data field :
  In field plan_fields -> lacks data field = true ->
  plan_invalid data <> Ok false.
Proof.
  intros Hin Hl Hv.
  pose proof (plan_invalid_false data Hv) as Hp.
  destruct (Hp field Hin) as (v & Hget & Ht).
  pose proof (get_lacking data field Hl) as Hg.
  destruct Hg as [H|H]; rewrite H in Hget.
  - injection Hget as <-. discriminate.
  - discriminate.
Qed.

(** C1. Whenever the generation call itself fails, or the service answers
    with data that lack one of the four fields, [generateTreatmentPlan] is
    fulfilled (no error leaves it) with the hardcoded fallback plan, equal
    to it as a value: list for list and string for string. *)
Theorem generateTreatmentPlan_falls_back E g ds w :
  call_fails g \/ response_lacks_field g ->
  fst (generateTreatmentPlan E g ds w) = Fulfilled fallback_plan.
Proof.
  intros H.
  destruct (generateTreatmentPlan_spec E g ds)
    as [(plan & evs & Hrun & _ & _ & [->|Hval] & _)|(evs & Hrun & Hs & _)];
    rewrite Hrun; cbn; [reflexivity| |].
  - exfalso.
    destruct Hval as (r & -> & _ & Hj & Hv).
    destruct H as [[e He]|(r' & data & field & Hr & Hj' & Hin & Hl)].
    + discriminate.
    + injection Hr as <-. rewrite Hj in Hj'. injection Hj' as <-.
      eapply lacking_is_invalid; eassumption.
  - exfalso.
    destruct H as [[e ->]|(r' & data & field & -> & Hj' & _)];
      cbn in Hs; [|rewrite Hj' in Hs]; discriminate.
Qed.

Lemma generateTreatmentPlan_falls_back_witness :
  (call_fails (FetchRejects TypeError) /\
   forall E, fst (generateTreatmentPlan E (FetchRejects TypeError)
                    (VArray [rust]) {| ui := image_selected; log := [] |})
             = Fulfilled fallback_plan) /\
  (response_lacks_field
     (FetchResolves
        {| ok := true;
           json := JsonResolves
                     (VObject [("immediate_steps", VArray [VString "Prune"]);
                               ("long_term_prevention", VArray []);
                               ("organic_alternatives", VArray [])]) |}) /\
   forall E,
     fst (generateTreatmentPlan E
            (FetchResolves
               {| ok := true;
                  json := JsonResolves
                     (VObject [("immediate_steps", VArray [VString "Prune"]);
                               ("long_term_prevention", VArray []);
                               ("organic_alternatives", VArray [])]) |})
            (VArray [rust]) {| ui := image_selected; log := [] |})
     = Fulfilled fallback_plan).
Proof.
  assert (H1 : call_fails (FetchRejects TypeError)) by (eexists; reflexivity).
  assert (H2 : response_lacks_field
     (FetchResolves
        {| ok := true;
           json := JsonResolves
                     (VObject [("immediate_steps", VArray [VString "Prune"]);
                               ("long_term_prevention", VArray []);
                               ("organic_alternatives", VArray [])]) |})).
  { eexists _, _, "chemical_solutions". cbn. repeat split; auto 10. }
  exact (conj
    (conj H1 (fun E => @generateTreatmentPlan_falls_back E _ (VArray [rust])
                         {| ui := image_selected; log := [] |} (or_introl H1)))
    (conj H2 (fun E => @generateTreatmentPlan_falls_back E _ (VArray [rust])
                         {| ui := image_selected; log := [] |} (or_intror H2)))).
Defined.


(** ** [handleAssess] *)

Lemma diagnosis_result_ok env found :
  diagnosis_result env = Fulfilled found -> diagnosis_succeeded env.
Proof.
  unfold diagnosis_result, diagnosis_succeeded.
  destruct (diagnosis env) as [e|r|]; [discriminate| |discriminate].
  destruct (ok r) eqn:Hok; [eauto|discriminate].
Qed.

Lemma diagnosis_unsuccessful_throws env :
  diagnosis_unsuccessful env ->
  exists err, diagnosis_result env = Rejected err.
Proof.
  unfold diagnosis_result.
  intros [[e ->]|(r & -> & ->)]; eauto.
Qed.

(** Every run of [handleAssess] is one of the six of [assess_run]. *)
Lemma handleAssess_run E env c :
  assess_run E env c (run (handleAssess E env) c).
Proof.
  unfold run, handleAssess; cbn.
  destruct (selectedImage c) as [f|] eqn:Hsel; cbn.
  2:{ unfold toast, emit; cbn. apply run_no_image; auto. }
  assert (Hsome : selectedImage c <> None) by congruence.
  unfold finally, try_catch, bind, read_base64, setIsLoading, update; cbn.
  destruct (reader_result env) as [u|] eqn:Hread; cbn.
  2:{ apply run_unread; congruence. }
  fold (base64_of u).
  destruct (diagnosis env) as [e|[okr j]|] eqn:Hd; cbn.
  { apply run_undiagnosed; auto. unfold diagnosis_result. now rewrite Hd. }
  2:{ apply run_unanswered; auto. unfold diagnosis_result. now rewrite Hd. }
  destruct okr; cbn.
  2:{ apply run_undiagnosed; auto. unfold diagnosis_result. now rewrite Hd. }
  unfold response_json; cbn.
  destruct j as [e|data|]; cbn.
  { apply run_undiagnosed; auto. unfold diagnosis_result. now rewrite Hd. }
  2:{ apply run_unanswered; auto. unfold diagnosis_result. now rewrite Hd. }
  assert (Hres : forall out,
            match diagnosed_diseases data with
            | Ok found => Fulfilled found
            | Throw e => Rejected e
            end = out -> diagnosis_result env = out).
  { intros out <-. unfold diagnosis_result. rewrite Hd. reflexivity. }
  destruct (diagnosed_diseases data) as [found|e] eqn:Hf; cbn.
  2:{ apply run_undiagnosed; auto. }
  destruct (generateTreatmentPlan_spec E (generation env) found)
    as [(plan & evs & Hg)|(evs & Hg)];
    pose proof Hg as (Hrun & _); rewrite Hrun; cbn;
    rewrite <- ?app_assoc; cbn.
  - eapply run_diagnosed; eauto.
  - eapply run_unplanned; eauto.
Qed.

(** The cases of [handleAssess_run], with their parts named. *)
Ltac assess_cases E env c :=
  let u := fresh "u" in
  destruct (handleAssess_run E env c)
    as [?Hsel|?Hsel ?Hread|u ?err ?Hsel ?Hread ?Hd
        |u ?found ?plan ?evs ?Hsel ?Hread ?Hd
           (?Hrun & ?Hnr & ?Hnt & ?Hplan & ?Hreq)
           ?shown ?final ?diagnosed ?planned
        |u ?Hsel ?Hread ?Hd
        |u ?found ?evs ?Hsel ?Hread ?Hd
           (?Hrun & ?Hs & ?descs & ?Hmap & ?Hevs) ?shown ?diagnosed].

Lemma requests_app l1 l2 : requests (l1 ++ l2) = (requests l1 ++ requests l2)%list.
Proof. apply flat_map_app. Qed.

Lemma toasts_app l1 l2 : toasts (l1 ++ l2) = (toasts l1 ++ toasts l2)%list.
Proof. apply flat_map_app. Qed.

(** An event list without renders holds no [Render]. *)
Lemma no_render_in evs c :
  filter is_render evs = [] -> ~ In (Render c) evs.
Proof.
  intros Hf Hin.
  assert (H : In (Render c) (filter is_render evs))
    by (apply filter_In; split; [exact Hin | reflexivity]).
  rewrite Hf in H. exact H.
Qed.

Lemma no_toast_in evs t :
  toasts evs = [] -> ~ In (Toast t) evs.
Proof.
  unfold toasts. intros Hf Hin.
  assert (H : In t (flat_map (fun e => match e with Toast t => [t] | _ => [] end) evs)).
  { apply in_flat_map. exists (Toast t). split; [exact Hin | now left]. }
  rewrite Hf in H. exact H.
Qed.




(** C3. Whatever the diagnosis finds (a list of any length, or anything
    else), the [fetch] calls of one run of [handleAssess] are, in the order
    they are issued: none; or the diagnostic request alone; or the
    diagnostic request followed by one generation request, and then the
    diagnostic service had answered with a successful response, from which
    the disease list sent on was read.  So generation is requested only
    after a successful diagnosis, the two calls never overlap, and a failed
    diagnosis is followed by no generation request. *)
Theorem generation_only_after_successful_diagnosis E env c :
  requests (log (snd (run (handleAssess E env) c))) = []
  \/ (exists image,
        requests (log (snd (run (handleAssess E env) c)))
        = [diagnosis_request env image])
  \/ (exists image found prompt,
        diagnosis_succeeded env /\
        diagnosis_result env = Fulfilled found /\
        requests (log (snd (run (handleAssess E env) c)))
        = [diagnosis_request env image; generation_request found prompt]).
Proof.
  assess_cases E env c; cbn [snd log].
  - left; reflexivity.
  - left; reflexivity.
  - right; left. eexists; reflexivity.
  - right.
    unfold requests in *; cbn.
    rewrite flat_map_app; cbn. rewrite app_nil_r.
    destruct Hreq as [(e & _ & ->)|(descs & _ & ->)].
    + left. eexists; reflexivity.
    + right. eexists _, _, _. split; [|split; [exact Hd|reflexivity]].
      eapply diagnosis_result_ok; eassumption.
  - right; left. eexists; reflexivity.
  - right; right. subst evs. eexists _, _, _.
    split; [|split; [exact Hd|reflexivity]].
    eapply diagnosis_result_ok; eassumption.
Qed.

(** C4. When the diagnostic call is made (an image is selected and read)
    and it fails or answers with a non-success response, [handleAssess]
    ends after exactly these steps: loading on, the one diagnostic request
    (no second one), the error logged, the toast "Assessment Failed",
    loading off.  The stored result is what it was before, in the final
    state and in every state shown on the way. *)
Theorem failed_diagnosis_aborts E env c image dataUrl :
  selectedImage c = Some image ->
  reader_result env = Some dataUrl ->
  diagnosis_unsuccessful env ->
  (exists err,
     run (handleAssess E env) c
     = (Fulfilled tt,
        {| ui := with_isLoading false c;
           log := [ Render (with_isLoading true c);
                    Fetch (diagnosis_request env (base64_of dataUrl));
                    ConsoleError "Error assessing plant health:" err;
                    Toast assessment_failed_toast;
                    Render (with_isLoading false c) ] |}))
  /\ result (ui (snd (run (handleAssess E env) c))) = result c
  /\ (forall c', In (Render c') (log (snd (run (handleAssess E env) c))) ->
                 result c' = result c).
Proof.
  intros Hsel Hread Hfail.
  destruct (diagnosis_unsuccessful_throws Hfail) as [err Herr].
  destruct (handleAssess_run E env c)
    as [Hsel'|Hsel' Hread'|u err' Hsel' Hread' Hd
        |u found plan evs Hsel' Hread' Hd Hg shown final diagnosed planned
        |u Hsel' Hread' Hd
        |u found evs Hsel' Hread' Hd Hg shown diagnosed];
    try congruence.
  assert (u = dataUrl) by congruence. subst u.
  split; [exists err'; reflexivity|].
  split; [reflexivity|].
  cbn. intros c' Hin.
  repeat (destruct Hin as [H|Hin];
          [first [discriminate | injection H as <-; reflexivity]|]).
  destruct Hin.
Qed.

Lemma failed_diagnosis_aborts_witness :
  selectedImage assessed = Some leaf_photo /\
  reader_result refused_diagnosis = Some "data:image/jpeg;base64,QUJD" /\
  diagnosis_unsuccessful refused_diagnosis /\
  forall E,
    result (ui (snd (run (handleAssess E refused_diagnosis) assessed)))
    = result assessed.
Proof.
  assert (H : diagnosis_unsuccessful refused_diagnosis).
  { right. eexists. split; reflexivity. }
  refine (conj eq_refl (conj eq_refl (conj H (fun E => _)))).
  exact (proj1 (proj2
    (@failed_diagnosis_aborts E refused_diagnosis assessed leaf_photo
       "data:image/jpeg;base64,QUJD" eq_refl eq_refl H))).
Defined.

(** C7. When the diagnosis succeeds with an empty disease list, the
    generation request is still issued, right after the diagnostic one:
    its [diseases] is the empty array and its prompt is the template around
    the join of no descriptions, which is the empty string. *)
Theorem empty_diagnosis_still_requests_plan E env c image dataUrl r data :
  selectedImage c = Some image ->
  reader_result env = Some dataUrl ->
  diagnosis env = FetchResolves r ->
  ok r = true ->
  json r = JsonResolves data ->
  diagnosed_diseases data = Ok (VArray []) ->
  requests (log (snd (run (handleAssess E env) c)))
  = [ diagnosis_request env (base64_of dataUrl);
      generation_request (VArray []) (prompt_of []) ]
  /\ body (generation_request (VArray []) (prompt_of []))
     = VObject [("diseases", VArray []); ("prompt", VString (prompt_of []))]
  /\ join ", " [] = ""
  /\ prompt_of []
     = "Act as a plant pathologist. For these detected diseases: . " ++ nl
       ++ "        Provide:" ++ nl
       ++ "        1. Immediate treatment steps" ++ nl
       ++ "        2. Long-term prevention strategies" ++ nl
       ++ "        3. Organic alternatives" ++ nl
       ++ "        4. Chemical solutions (if necessary)" ++ nl
       ++ "        Format as JSON with markdown formatting in descriptions.".
Proof.
  intros Hsel Hread Hd Hok Hj Hfound.
  assert (Hres : diagnosis_result env = Fulfilled (VArray [])).
  { unfold diagnosis_result. now rewrite Hd, Hok, Hj, Hfound. }
  split; [|repeat split].
  destruct (handleAssess_run E env c)
    as [Hsel'|Hsel' Hread'|u err' Hsel' Hread' Hd'
        |u found plan evs Hsel' Hread' Hd' (Hrun & Hnr & Hnt & Hplan & Hreq)
           shown final diagnosed planned
        |u Hsel' Hread' Hd'
        |u found evs Hsel' Hread' Hd' (Hrun & Hs & descs & Hmap & Hevs)
           shown diagnosed];
    try congruence.
  - assert (u = dataUrl) by congruence. subst u.
    assert (found = VArray []) by congruence. subst found.
    cbn [snd log].
    unfold requests in *; cbn.
    rewrite flat_map_app; cbn. rewrite app_nil_r.
    destruct Hreq as [(e & Hmap & _)|(descs & Hmap & ->)]; [discriminate|].
    cbn in Hmap. injection Hmap as <-. reflexivity.
  - assert (u = dataUrl) by congruence. subst u.
    assert (found = VArray []) by congruence. subst found.
    cbn in Hmap. injection Hmap as <-. subst evs. reflexivity.
Qed.

Lemma empty_diagnosis_still_requests_plan_witness :
  selectedImage image_selected = Some leaf_photo /\
  reader_result healthy_plant = Some "data:image/jpeg;base64,QUJD" /\
  diagnosis healthy_plant = diagnosis_of [] /\
  forall E,
    requests (log (snd (run (handleAssess E healthy_plant) image_selected)))
    = [ diagnosis_request healthy_plant (Some "QUJD");
        generation_request (VArray []) (prompt_of []) ].
Proof.
  refine (conj eq_refl (conj eq_refl (conj eq_refl (fun E => _)))).
  exact (proj1
    (@empty_diagnosis_still_requests_plan E healthy_plant image_selected
       leaf_photo "data:image/jpeg;base64,QUJD"
       {| ok := true;
          json := JsonResolves
                    (VObject [("health_assessment",
                               VObject [("diseases", VArray [])])]) |}
       (VObject [("health_assessment", VObject [("diseases", VArray [])])])
       eq_refl eq_refl eq_refl eq_refl eq_refl eq_refl)).
Defined.

(** C8 (the code does otherwise). One disease at confidence 0.5 and an
    unreachable generation service: the run stores the fallback plan and
    the only toast it shows is "Assessment Complete"; the user is not told
    that the plan could not be generated. *)
Theorem failed_generation_is_reported_as_complete :
  forall E,
    toasts (log (snd (run (handleAssess E unreachable_generation)
                          image_selected)))
    = [assessment_complete_toast]
    /\ result (ui (snd (run (handleAssess E unreachable_generation)
                            image_selected)))
       = Some {| diseases := VArray [rust];
                 treatment_plan := fallback_plan;
                 imageUrl := "blob:leaf" |}.
Proof.
  intro E. split; reflexivity.
Qed.

(** ** [handleImageSelect] *)

(** C5. Whatever the state before (a completed assessment included), a
    change event that carries a file leaves the page with that file as the
    selected image, the file's object URL as the preview and no result. *)
Theorem selecting_image_discards_result e c file others :
  files e = Some (file :: others) ->
  fst (run (handleImageSelect e) c) = Fulfilled tt
  /\ ui (snd (run (handleImageSelect e) c))
     = {| selectedImage := Some file;
          previewUrl := object_url e;
          isLoading := isLoading c;
          isGeneratingTreatment := isGeneratingTreatment c;
          result := None |}.
Proof.
  intros Hf. unfold run, handleImageSelect. rewrite Hf.
  split; reflexivity.
Qed.

Lemma selecting_image_discards_result_witness :
  files {| files := Some [other_photo]; object_url := "blob:stem" |}
  = Some [other_photo]
  /\ result assessed <> None
  /\ result (ui (snd (run (handleImageSelect
        {| files := Some [other_photo]; object_url := "blob:stem" |})
        assessed))) = None.
Proof.
  refine (conj eq_refl (conj _ _)).
  - discriminate.
  - exact (f_equal result (proj2
      (@selecting_image_discards_result
         {| files := Some [other_photo]; object_url := "blob:stem" |}
         assessed other_photo [] eq_refl))).
Defined.

(** C10. A change event without a file (no list, or an empty one) leaves
    the whole component as it was, and nothing else happens either. *)
Theorem empty_selection_changes_nothing e c :
  files e = None \/ files e = Some [] ->
  run (handleImageSelect e) c = (Fulfilled tt, {| ui := c; log := [] |}).
Proof.
  unfold run, handleImageSelect.
  intros [->| ->]; reflexivity.
Qed.

Lemma empty_selection_changes_nothing_witness :
  files {| files := Some []; object_url := "" |} = Some []
  /\ ui (snd (run (handleImageSelect {| files := Some []; object_url := "" |})
                  assessed)) = assessed.
Proof.
  refine (conj eq_refl _).
  exact (f_equal (fun o => ui (snd o))
    (@empty_selection_changes_nothing
       {| files := Some []; object_url := "" |} assessed
       (or_intror eq_refl))).
Defined.

(** ** The displayed plan *)

Lemma select_keeps_plans e c c' :
  plans_settled c -> shows (handleImageSelect e) c c' -> plans_settled c'.
Proof.
  unfold shows, run, handleImageSelect. intros Hc.
  destruct (files e) as [[|f l]|]; cbn; try tauto.
  intros [H|[H|[H|[]]]]; injection H as <-; intros r Hr; cbn in Hr;
    try discriminate; auto.
Qed.

Lemma assess_keeps_plans E env c c' :
  plans_settled c -> shows (handleAssess E env) c c' -> plans_settled c'.
Proof.
  unfold shows. intros Hc.
  assert (Hshow : forall found st,
            result st = Some {| diseases := found;
                                treatment_plan := pending_plan;
                                imageUrl := previewUrl c |} ->
            plans_settled st).
  { intros found st Hst r Hr. rewrite Hst in Hr. injection Hr as <-.
    left; reflexivity. }
  assess_cases E env c; cbn [snd log]; intros Hin.
  - destruct Hin as [H|[]]; discriminate.
  - destruct Hin as [H|[]]; injection H as <-. exact Hc.
  - cbn in Hin.
    repeat (destruct Hin as [H|Hin];
            [first [discriminate | injection H as <-; exact Hc]|]).
    destruct Hin.
  - assert (Hfinal : plan_settled (treatment_plan final)).
    { destruct Hplan as [->|(r & _ & _ & _ & Hv)]; [right; left; reflexivity|].
      right; right; exact Hv. }
    assert (Hf : forall st, result st = Some final -> plans_settled st).
    { intros st Hst r Hr. rewrite Hst in Hr. injection Hr as <-. exact Hfinal. }
    cbn in Hin.
    destruct Hin as [H|[H|[H|[H|Hin]]]]; try discriminate.
    + injection H as <-. exact Hc.
    + injection H as <-. eapply Hshow; reflexivity.
    + injection H as <-. eapply Hshow; reflexivity.
    + apply in_app_or in Hin. destruct Hin as [Hin|Hin].
      * exfalso. exact (no_render_in _ _ Hnr Hin).
      * cbn in Hin.
        destruct Hin as [H|[H|[H|[H|[]]]]]; try discriminate;
          injection H as <-; apply Hf; reflexivity.
  - cbn in Hin.
    destruct Hin as [H|[H|[]]]; try discriminate.
    injection H as <-. exact Hc.
  - subst evs. cbn in Hin.
    destruct Hin as [H|[H|[H|[H|[H|[]]]]]]; try discriminate.
    + injection H as <-. exact Hc.
    + injection H as <-. eapply Hshow; reflexivity.
    + injection H as <-. eapply Hshow; reflexivity.
Qed.

Lemma reachable_plans_settled E c : reachable E c -> plans_settled c.
Proof.
  induction 1 as [|c c' Hreach IH Hstep].
  - intros r Hr. discriminate.
  - destruct Hstep as [e c c' _ Hshows|env c c' _ Hshows].
    + eapply select_keeps_plans; eassumption.
    + eapply assess_keeps_plans; eassumption.
Qed.

Lemma assessed_reachable E : reachable E assessed.
Proof.
  apply reach_step with (c := image_selected).
  - apply reach_step with (c := initial); [apply reach_initial|].
    apply step_select
      with (e := {| files := Some [leaf_photo]; object_url := "blob:leaf" |});
      [reflexivity|].
    unfold shows; cbn. right; right; left; reflexivity.
  - apply step_assess with (env := rusted_plant); [reflexivity|].
    unfold shows. vm_compute. do 8 right. left. reflexivity.
Qed.

(** C2 as stated fails: after a successful diagnosis, a generation response
    with three populated fields and an empty [chemical_solutions] passes
    validation and is displayed as it is. *)
Lemma partially_populated_plan_is_displayed :
  exists c r,
    (forall E, reachable E c) /\ result c = Some r /\
    all_empty (treatment_plan r) = false /\
    all_populated (treatment_plan r) = false.
Proof.
  exists assessed. eexists. split; [exact assessed_reachable|].
  split; [reflexivity|]. split; reflexivity.
Qed.

(** C2, amended. In every reachable state, the plan of a stored result is
    the pending placeholder (four empty lists), or the fallback plan (four
    populated lists), or a generation response that passed validation, in
    which each of the four fields is present and truthy; such a field may
    be an empty list. *)
Theorem displayed_plan_is_pending_fallback_or_validated E c r :
  reachable E c ->
  result c = Some r ->
  (treatment_plan r = pending_plan /\ all_empty (treatment_plan r) = true)
  \/ (treatment_plan r = fallback_plan
      /\ all_populated (treatment_plan r) = true)
  \/ (plan_invalid (treatment_plan r) = Ok false
      /\ all_present (treatment_plan r)).
Proof.
  intros Hreach Hr.
  pose proof (reachable_plans_settled Hreach) as Hs.
  destruct (Hs r Hr) as [H|[H|H]].
  - left. rewrite H. split; reflexivity.
  - right; left. rewrite H. split; reflexivity.
  - right; right. split; [exact H|]. apply plan_invalid_false; exact H.
Qed.

Lemma displayed_plan_is_pending_fallback_or_validated_witness :
  result assessed
  = Some {| diseases := VArray [rust]; treatment_plan := organic_only_plan;
            imageUrl := "blob:leaf" |}
  /\ forall E,
      reachable E assessed
      /\ ((organic_only_plan = pending_plan
           /\ all_empty organic_only_plan = true)
          \/ (organic_only_plan = fallback_plan
              /\ all_populated organic_only_plan = true)
          \/ (plan_invalid organic_only_plan = Ok false
              /\ all_present organic_only_plan)).
Proof.
  refine (conj eq_refl (fun E => conj (assessed_reachable E) _)).
  exact (@displayed_plan_is_pending_fallback_or_validated E assessed
           {| diseases := VArray [rust]; treatment_plan := organic_only_plan;
              imageUrl := "blob:leaf" |}
           (assessed_reachable E) eq_refl).
Defined.

(* ================================================================== *)
(** * Doubles: the product with 100 and its rendering *)

Section Doubles.

Local Open Scope Z_scope.

Lemma fexp64 x : fexp prec emax x = Z.max (x - 53) (-1074).
Proof. reflexivity. Qed.

Lemma digits2_pos_bounds p :
  2 ^ (Zpos (digits2_pos p) - 1) <= Zpos p < 2 ^ Zpos (digits2_pos p).
Proof.
  induction p as [p IH|p IH|]; cbn [digits2_pos].
  - rewrite Pos2Z.inj_succ.
    replace (Z.succ (Zpos (digits2_pos p)) - 1) with (Z.succ (Zpos (digits2_pos p) - 1)) by lia.
    rewrite !Z.pow_succ_r by lia. lia.
  - rewrite Pos2Z.inj_succ.
    replace (Z.succ (Zpos (digits2_pos p)) - 1) with (Z.succ (Zpos (digits2_pos p) - 1)) by lia.
    rewrite !Z.pow_succ_r by lia. lia.
  - cbn. lia.
Qed.

Lemma digits2_pos_le p j : 0 <= j -> Zpos p < 2 ^ j -> Zpos (digits2_pos p) <= j.
Proof.
  intros Hj Hp.
  destruct (digits2_pos_bounds p) as [Hlo _].
  assert (H : 2 ^ (Zpos (digits2_pos p) - 1) < 2 ^ j) by lia.
  apply Z.pow_lt_mono_r_iff in H; lia.
Qed.

Lemma shr_1_m x : 0 <= shr_m x -> shr_m (shr_1 x) = shr_m x / 2.
Proof.
  destruct x as [m r s]; cbn [shr_m]. intros Hm.
  rewrite <- Z.div2_div.
  destruct m as [|[p|p|]|p]; try reflexivity; lia.
Qed.

Lemma iter_shr_1_m n : forall x,
  0 <= shr_m x -> shr_m (iter_pos shr_1 n x) = shr_m x / 2 ^ Zpos n.
Proof.
  induction n as [n IH|n IH|]; intros x Hx; cbn [iter_pos].
  - assert (H1 : 0 <= shr_m (shr_1 x)) by (rewrite shr_1_m by assumption; apply Z.div_pos; lia).
    assert (H2 : 0 <= shr_m (iter_pos shr_1 n (shr_1 x)))
      by (rewrite IH by assumption; apply Z.div_pos; lia).
    rewrite IH, IH, shr_1_m by assumption.
    rewrite !Z.div_div by lia.
    f_equal. change 2 with (2 ^ 1) at 1.
    rewrite <- !Z.pow_add_r by lia. f_equal. lia.
  - assert (H2 : 0 <= shr_m (iter_pos shr_1 n x))
      by (rewrite IH by assumption; apply Z.div_pos; lia).
    rewrite IH, IH by assumption.
    rewrite !Z.div_div by lia.
    f_equal. rewrite <- !Z.pow_add_r by lia. f_equal. lia.
  - rewrite shr_1_m by assumption. reflexivity.
Qed.

Lemma shr_fexp_m m e l r e' :
  0 <= m ->
  shr_fexp prec emax m e l = (r, e') ->
  shr_m r = m / 2 ^ (e' - e) /\
  e' = Z.max e (fexp prec emax (Zdigits2 m + e)).
Proof.
  intros Hm. unfold shr_fexp, shr.
  assert (Hrec : shr_m (shr_record_of_loc m l) = m) by (destruct l as [|[]]; reflexivity).
  destruct (fexp prec emax (Zdigits2 m + e) - e) as [|n|n] eqn:Hn;
    intros H; injection H as <- <-.
  - rewrite Hrec. replace (e - e) with 0 by lia. rewrite Z.div_1_r. lia.
  - rewrite iter_shr_1_m by lia. rewrite Hrec.
    replace (e + Zpos n - e) with (Zpos n) by lia. lia.
  - rewrite Hrec. replace (e - e) with 0 by lia. rewrite Z.div_1_r. lia.
Qed.

Lemma round_nearest_even_bounds m l :
  m <= round_nearest_even m l <= m + 1.
Proof.
  unfold round_nearest_even.
  destruct l as [|[]]; try destruct (Z.even m); lia.
Qed.

Lemma pow2_pos k : 0 < 2 ^ k \/ k < 0.
Proof. destruct (Z.le_gt_cases 0 k); [left; apply Z.pow_pos_nonneg; lia | right; lia]. Qed.

Lemma pow2_split a b : 0 <= a -> 0 <= b -> 2 ^ (a + b) = 2 ^ a * 2 ^ b.
Proof. intros; apply Z.pow_add_r; assumption. Qed.

Lemma pow2_ge_1 k : 0 <= k -> 1 <= 2 ^ k.
Proof. intros; assert (0 < 2 ^ k) by (apply Z.pow_pos_nonneg; lia); lia. Qed.

(** A mantissa below [100 * 2^-e + 1] at an exponent [e <= -46] has at
    most [7 - e] digits. *)
Lemma digits_below_128 (q : positive) (e : Z) :
  e <= -46 -> Zpos q <= 100 * 2 ^ (- e) + 1 ->
  Zpos (digits2_pos q) + e <= 7.
Proof.
  intros He Hq.
  assert (H1 : 1 <= 2 ^ (- e)) by (apply pow2_ge_1; lia).
  assert (H : Zpos (digits2_pos q) <= 7 - e).
  { apply digits2_pos_le; [lia|].
    replace (7 - e) with (7 + - e) by lia.
    rewrite pow2_split by lia. change (2 ^ 7) with 128. lia. }
  lia.
Qed.

Lemma times_100_range (m : positive) (e : Z) :
  e <= -52 -> Zpos m <= 2 ^ (- e) ->
  match binary_round_aux prec emax false
          (Zpos (m * 7036874417766400)) (e + -46) loc_Exact with
  | S754_zero _ => True
  | S754_finite s m' e' =>
      s = false /\ e' <= -46 /\ Zpos m' <= 100 * 2 ^ (- e') + 1
  | _ => False
  end.
Proof.
  intros He Hm.
  assert (HP : 1 <= 2 ^ (- e)) by (apply pow2_ge_1; lia).
  unfold binary_round_aux.
  set (M := Zpos (m * 7036874417766400)).
  set (Ex := e + -46).
  assert (HM : M = Zpos m * 7036874417766400) by (unfold M; apply Pos2Z.inj_mul).
  assert (HEx : 2 ^ (- Ex) = 70368744177664 * 2 ^ (- e)).
  { unfold Ex. replace (- (e + -46)) with (46 + - e) by lia.
    rewrite pow2_split by lia. reflexivity. }
  destruct (shr_fexp prec emax M Ex loc_Exact) as [r1 e1] eqn:H1.
  apply shr_fexp_m in H1; [|lia]. destruct H1 as [Hm1 He1].
  rewrite fexp64 in He1.
  assert (HdM : Zdigits2 M + Ex <= 7).
  { unfold M at 1; cbn [Zdigits2].
    apply digits_below_128 with (e := Ex); [unfold Ex; lia|].
    fold M. rewrite HM, HEx. lia. }
  assert (He1' : Ex <= e1 <= -46) by (unfold Ex in *; lia).
  assert (HK1 : 2 ^ (- Ex) = 2 ^ (e1 - Ex) * 2 ^ (- e1)).
  { rewrite <- pow2_split by lia. f_equal. lia. }
  assert (K1pos : 1 <= 2 ^ (e1 - Ex)) by (apply pow2_ge_1; lia).
  assert (X1pos : 1 <= 2 ^ (- e1)) by (apply pow2_ge_1; lia).
  assert (Hm1lo : 0 <= shr_m r1) by (rewrite Hm1; apply Z.div_pos; lia).
  assert (Hm1hi : shr_m r1 <= 100 * 2 ^ (- e1)).
  { rewrite Hm1. apply Z.div_le_upper_bound; [lia|].
    replace (2 ^ (e1 - Ex) * (100 * 2 ^ (- e1)))
      with (100 * (2 ^ (e1 - Ex) * 2 ^ (- e1))) by ring.
    rewrite <- HK1, HEx, HM. lia. }
  pose proof (round_nearest_even_bounds (shr_m r1) (loc_of_shr_record r1)) as Hr.
  set (m1 := round_nearest_even (shr_m r1) (loc_of_shr_record r1)) in *.
  destruct (shr_fexp prec emax m1 e1 loc_Exact) as [r2 e2] eqn:H2.
  apply shr_fexp_m in H2; [|lia]. destruct H2 as [Hm2 He2].
  rewrite fexp64 in He2.
  assert (Hd1 : Zdigits2 m1 + e1 <= 7).
  { destruct m1 as [|q|q] eqn:Hq; cbn [Zdigits2]; [lia| |lia].
    apply digits_below_128; lia. }
  assert (He2' : e1 <= e2 <= -46) by lia.
  assert (HK2 : 2 ^ (- e1) = 2 ^ (e2 - e1) * 2 ^ (- e2)).
  { rewrite <- pow2_split by lia. f_equal. lia. }
  assert (K2pos : 1 <= 2 ^ (e2 - e1)) by (apply pow2_ge_1; lia).
  assert (X2pos : 1 <= 2 ^ (- e2)) by (apply pow2_ge_1; lia).
  assert (Hm2lo : 0 <= shr_m r2) by (rewrite Hm2; apply Z.div_pos; lia).
  assert (Hm2hi : shr_m r2 <= 100 * 2 ^ (- e2) + 1).
  { rewrite Hm2. apply Z.div_le_upper_bound; [lia|].
    replace (2 ^ (e2 - e1) * (100 * 2 ^ (- e2) + 1))
      with (100 * (2 ^ (e2 - e1) * 2 ^ (- e2)) + 2 ^ (e2 - e1)) by ring.
    rewrite <- HK2. lia. }
  destruct (shr_m r2) as [|q|q]; [exact I| |lia].
  change (emax - prec) with 971.
  destruct (Z.leb_spec e2 971); [|lia].
  repeat split; lia.
Qed.


Lemma Prim2SF_zero : Prim2SF 0 = S754_zero false.
Proof. vm_compute. reflexivity. Qed.

Lemma Prim2SF_one : Prim2SF 1 = S754_finite false 4503599627370496 (-52).
Proof. vm_compute. reflexivity. Qed.

Lemma Prim2SF_hundred :
  Prim2SF 100 = S754_finite false 7036874417766400 (-46).
Proof. vm_compute. reflexivity. Qed.

Lemma SFleb_finite m e n f :
  SFleb (S754_finite false m e) (S754_finite false n f) = true ->
  e < f \/ (e = f /\ Zpos m <= Zpos n).
Proof.
  unfold SFleb, SFcompare.
  destruct (Z.compare_spec e f) as [Heq|Hlt|Hgt]; [|left; exact Hlt|discriminate].
  rewrite Pos.compare_cont_spec. unfold Pos.switch_Eq.
  destruct (Pos.compare_spec m n) as [Hmn|Hmn|Hmn]; intros H;
    [right|right|discriminate]; split; try exact Heq.
  - rewrite Hmn. apply Z.le_refl.
  - apply Z.lt_le_incl. exact Hmn.
Qed.

Lemma canonical_digits m e :
  canonical_mantissa prec emax m e = true ->
  e < -52 -> Zpos m <= 2 ^ (- e).
Proof.
  unfold canonical_mantissa. intros Hc Hlt.
  apply Z.eqb_eq in Hc. rewrite fexp64 in Hc.
  pose proof (digits2_pos_bounds m) as [_ Hd].
  assert (Hle : Zpos (digits2_pos m) <= - e) by lia.
  assert (Hpow : 2 ^ Zpos (digits2_pos m) <= 2 ^ (- e)).
  { apply Z.pow_le_mono_r; [reflexivity | exact Hle]. }
  apply Z.lt_le_incl. eapply Z.lt_le_trans; [exact Hd|exact Hpow].
Qed.

Lemma pow2_52 : 2 ^ (- -52) = 4503599627370496.
Proof. vm_compute. reflexivity. Qed.

Lemma unit_interval_cases p :
  in_unit_interval p ->
  (exists s, Prim2SF p = S754_zero s) \/
  (exists m e, Prim2SF p = S754_finite false m e /\
               e <= -52 /\ Zpos m <= 2 ^ (- e)).
Proof.
  intros [H0 H1].
  rewrite leb_spec in H0, H1.
  pose proof (Prim2SF_valid p) as Hv.
  rewrite Prim2SF_zero in H0. rewrite Prim2SF_one in H1.
  destruct (Prim2SF p) as [s|s| |s m e]; try discriminate.
  - left; eauto.
  - destruct s; discriminate.
  - right. destruct s; [discriminate|].
    exists m, e. split; [reflexivity|].
    cbn [valid_binary] in Hv. unfold bounded in Hv.
    apply andb_true_iff in Hv. destruct Hv as [Hc _].
    apply SFleb_finite in H1. destruct H1 as [Hlt|[Heq Hle]].
    + split; [apply Z.lt_le_incl; exact Hlt|].
      apply canonical_digits; assumption.
    + split; [rewrite Heq; apply Z.le_refl|].
      rewrite Heq, pow2_52. exact Hle.
Qed.

Lemma pow2_46 : 2 ^ 46 = 70368744177664.
Proof. vm_compute. reflexivity. Qed.

Lemma pow10_21 : 10 ^ 21 = 1000000000000000000000.
Proof. vm_compute. reflexivity. Qed.

Lemma product_with_100 p :
  in_unit_interval p ->
  (exists s, Prim2SF (p * 100) = S754_zero s) \/
  (exists m e, Prim2SF (p * 100) = S754_finite false m e /\
               e <= -46 /\ Zpos m <= 100 * 2 ^ (- e) + 1).
Proof.
  intros Hp. rewrite mul_spec, Prim2SF_hundred.
  destruct (unit_interval_cases Hp) as [[s ->]|(m & e & -> & He & Hm)].
  - left. exists (xorb s false). reflexivity.
  - unfold SF64mul, SFmul. cbn [xorb].
    pose proof (@times_100_range m e He Hm) as H.
    destruct (binary_round_aux prec emax false
                (Z.pos (m * 7036874417766400)) (e + -46) loc_Exact)
      as [s|s| |s m' e']; try contradiction.
    + left. eauto.
    + right. destruct H as (-> & He' & Hm'). eauto.
Qed.

Lemma fixed_point_range m e :
  e <= -46 -> Zpos m <= 100 * 2 ^ (- e) + 1 ->
  at_least_1e21 m e = false /\ 0 <= round_half_up 10 m e <= 1000.
Proof.
  intros He Hm.
  destruct e as [|k|k]; try lia.
  change (- Zneg k) with (Zpos k) in Hm.
  assert (HX : 2 ^ 46 <= 2 ^ Zpos k) by (apply Z.pow_le_mono_r; lia).
  rewrite pow2_46 in HX.
  unfold at_least_1e21, round_half_up.
  split.
  - apply Z.leb_gt. rewrite pow10_21. lia.
  - replace (Zpos k + 1) with (1 + Zpos k) by lia.
    rewrite Z.pow_add_r by lia. change (2 ^ 1) with 2.
    split.
    + apply Z.div_pos; lia.
    + apply Z.lt_succ_r. apply Z.div_lt_upper_bound; lia.
Qed.

Lemma string_of_uint_digits d :
  all_digits (NilEmpty.string_of_uint d) = true.
Proof.
  induction d; cbn; auto.
Qed.

Lemma digits_all_digits n : all_digits (digits n) = true.
Proof.
  unfold digits, NilZero.string_of_uint.
  destruct (N.to_uint (Z.to_N n)) eqn:H; try reflexivity;
    rewrite <- H; apply string_of_uint_digits.
Qed.

Lemma digits_single n :
  0 <= n < 10 -> exists c, digits n = String c "" /\ is_digit c = true.
Proof.
  intros [Hlo Hhi].
  destruct n as [|q|q]; [eexists; split; reflexivity| |lia].
  do 4 (try destruct q as [q|q|]); try lia; eexists; split; reflexivity.
Qed.

(** [round_half_up 10] picks the tenth nearest to the double. *)
Lemma round_half_up_nearest m e :
  (Qabs (exact (S754_finite false m e) - (round_half_up 10 m e # 10)) <= 1 # 20)%Q.
Proof.
  apply Qabs_Qle_condition.
  unfold exact, round_half_up.
  destruct e as [|k|k].
  - unfold Qle, Qminus, Qplus, Qopp, inject_Z; cbn [Qnum Qden]. lia.
  - unfold Qle, Qminus, Qplus, Qopp, inject_Z; cbn [Qnum Qden].
    set (X := 2 ^ Zpos k). lia.
  - assert (HX : 0 < 2 ^ Zpos k) by (apply Z.pow_pos_nonneg; lia).
    replace (Zpos k + 1) with (1 + Zpos k) by lia.
    rewrite Z.pow_add_r by lia. change (2 ^ 1) with 2.
    set (X := 2 ^ Zpos k) in *.
    set (n := (2 * 10 * Zpos m + X) / (2 * X)).
    assert (Hdiv : 2 * X * n <= 2 * 10 * Zpos m + X < 2 * X * n + 2 * X).
    { pose proof (Z.div_mod (2 * 10 * Zpos m + X) (2 * X)) as Hdm.
      pose proof (Z.mod_pos_bound (2 * 10 * Zpos m + X) (2 * X)) as Hb.
      fold n in Hdm. lia. }
    unfold Qle, Qminus, Qplus, Qopp; cbn [Qnum Qden].
    rewrite !Pos2Z.inj_mul, Pos2Z.inj_pow. fold X.
    split; nia.
Qed.

Lemma toFixed1_finite E x m e :
  Prim2SF x = S754_finite false m e ->
  at_least_1e21 m e = false ->
  toFixed1 E x = point_one (round_half_up 10 m e).
Proof.
  intros Hx Hs. unfold toFixed1. rewrite Hx, Hs. reflexivity.
Qed.

Lemma toFixed1_zero E x s :
  Prim2SF x = S754_zero s -> toFixed1 E x = point_one 0.
Proof.
  intros Hx. unfold toFixed1. rewrite Hx. reflexivity.
Qed.

Lemma append_assoc (a b c : string) : (a ++ b) ++ c = a ++ (b ++ c).
Proof. induction a as [|x a IH]; cbn; [reflexivity | now rewrite IH]. Qed.

Lemma percent_of_unit E p :
  in_unit_interval p ->
  exists n, 0 <= n <= 1000
    /\ percent E (VNumber p) = Ok (point_one n)
    /\ (Qabs (exact (Prim2SF (p * 100)) - (n # 10)) <= 1 # 20)%Q.
Proof.
  intros Hp. unfold percent, to_number, rbind.
  destruct (@product_with_100 p Hp) as [[s Hz]|(m & e & Hf & He & Hm)].
  - exists 0. split; [lia|]. split.
    + rewrite (@toFixed1_zero E _ s Hz). reflexivity.
    + rewrite Hz. discriminate.
  - destruct (@fixed_point_range m e He Hm) as [Hs Hn].
    exists (round_half_up 10 m e). split; [exact Hn|]. split.
    + rewrite (@toFixed1_finite E _ m e Hf Hs). reflexivity.
    + rewrite Hf. apply round_half_up_nearest.
Qed.

(** C6. For a disease whose probability [p] is a number in [0,1], the
    results view and the prompt both show [p * 100] through [toFixed(1)]:
    the decimal digits of a whole part, a point and exactly one more digit,
    followed by "% confidence".  The number shown, [n / 10], is a tenth
    nearest to the double [p * 100] (within 1/20 of it), between 0.0 and
    100.0. *)
Theorem confidence_has_one_decimal E d name p :
  get d "name" = Ok (VString name) ->
  get d "probability" = Ok (VNumber p) ->
  in_unit_interval p ->
  exists (n : Z) (whole : string) (tenth : ascii),
    0 <= n <= 1000
    /\ (Qabs (exact (Prim2SF (p * 100)) - (n # 10)) <= 1 # 20)%Q
    /\ whole = digits (n / 10)
    /\ String tenth "" = digits (n mod 10)
    /\ all_digits whole = true
    /\ is_digit tenth = true
    /\ confidence_label E d
       = Ok (whole ++ "." ++ String tenth "% confidence")
    /\ describe E d
       = Ok (name ++ " (" ++ whole ++ "." ++ String tenth "% confidence)").
Proof.
  intros Hname Hprob Hp.
  destruct (@percent_of_unit E p Hp) as (n & Hn & Hpct & Hnear).
  destruct (@digits_single (n mod 10)) as (tenth & Ht & Hd);
    [apply Z.mod_pos_bound; lia|].
  exists n, (digits (n / 10)), tenth.
  repeat split; try lia; auto using digits_all_digits.
  - unfold confidence_label. rewrite Hprob. cbn [rbind]. rewrite Hpct.
    cbn [rbind]. unfold point_one. rewrite Ht.
    rewrite !append_assoc. reflexivity.
  - unfold describe. rewrite Hname. cbn [rbind to_string].
    rewrite Hprob. cbn [rbind]. rewrite Hpct. cbn [rbind].
    unfold point_one. rewrite Ht.
    rewrite !append_assoc. reflexivity.
Qed.

Lemma confidence_has_one_decimal_witness :
  get blight "name" = Ok (VString "Blight")
  /\ get blight "probability" = Ok (VNumber p0823)
  /\ in_unit_interval p0823
  /\ forall E,
      confidence_label E blight = Ok "82.3% confidence"
      /\ describe E blight = Ok "Blight (82.3% confidence)"
      /\ exists (n : Z) (whole : string) (tenth : ascii),
          0 <= n <= 1000
          /\ (Qabs (exact (Prim2SF (p0823 * 100)) - (n # 10)) <= 1 # 20)%Q
          /\ whole = digits (n / 10)
          /\ String tenth "" = digits (n mod 10)
          /\ all_digits whole = true
          /\ is_digit tenth = true
          /\ confidence_label E blight
             = Ok (whole ++ "." ++ String tenth "% confidence")
          /\ describe E blight
             = Ok ("Blight" ++ " (" ++ whole ++ "." ++ String tenth "% confidence)").
Proof.
  assert (Hp : in_unit_interval p0823) by (split; vm_compute; reflexivity).
  refine (conj eq_refl (conj eq_refl (conj Hp (fun E => conj _ (conj _ _))))).
  - vm_compute. reflexivity.
  - vm_compute. reflexivity.
  - exact (@confidence_has_one_decimal E blight "Blight" p0823
             eq_refl eq_refl Hp).
Defined.

End Doubles.

(* ================================================================== *)
(** * Further properties of [generateTreatmentPlan] *)

(** X1. A valid answer is handed back untouched. *)
Theorem valid_plan_is_returned_unchanged E g ds descriptions r data w :
  array_map (describe E) ds = Ok descriptions ->
  g = FetchResolves r ->
  ok r = true ->
  json r = JsonResolves data ->
  plan_invalid data = Ok false ->
  generateTreatmentPlan E g ds w
  = (Fulfilled data,
     {| ui := ui w;
        log := (log w ++
                [Fetch (generation_request ds (prompt_of descriptions))])%list |}).
Proof.
  intros Hmap -> Hok Hj Hv.
  unfold generateTreatmentPlan, try_catch, bind, lift, fetch, emit,
    response_json.
  rewrite Hmap. cbn. rewrite Hok. cbn. rewrite Hj. cbn. rewrite Hv. cbn.
  reflexivity.
Qed.

Lemma valid_plan_is_returned_unchanged_witness :
  plan_invalid organic_only_plan = Ok false /\
  forall E,
    array_map (describe E) (VArray [rust]) = Ok ["Rust (50.0% confidence)"] /\
    fst (generateTreatmentPlan E (generation rusted_plant) (VArray [rust])
           {| ui := image_selected; log := [] |})
    = Fulfilled organic_only_plan.
Proof.
  refine (conj eq_refl (fun E => conj eq_refl _)).
  exact (f_equal fst
    (@valid_plan_is_returned_unchanged E (generation rusted_plant)
       (VArray [rust]) ["Rust (50.0% confidence)"]
       {| ok := true; json := JsonResolves organic_only_plan |}
       organic_only_plan {| ui := image_selected; log := [] |}
       eq_refl eq_refl eq_refl eq_refl eq_refl)).
Defined.

(** X2. A refusal of the generation service is logged with the service's own
    [details] when it gives some, and with a stock message when not. *)
Theorem refused_generation_logs_details E g ds descriptions r errorData
    details message w :
  array_map (describe E) ds = Ok descriptions ->
  g = FetchResolves r ->
  ok r = false ->
  json r = JsonResolves errorData ->
  get errorData "details" = Ok details ->
  to_string E (if truthy details then details
               else VString "Failed to generate treatment plan")
  = Ok message ->
  generateTreatmentPlan E g ds w
  = (Fulfilled fallback_plan,
     {| ui := ui w;
        log := (log w ++
                [ Fetch (generation_request ds (prompt_of descriptions));
                  ConsoleError "Error generating treatment plan:"
                               (Error message) ])%list |}).
Proof.
  intros Hmap -> Hok Hj Hd Hm.
  unfold generateTreatmentPlan, try_catch, bind, lift, fetch, emit,
    response_json, generation_error.
  rewrite Hmap. cbn. rewrite Hok. cbn. rewrite Hj. cbn. rewrite Hd. cbn.
  rewrite Hm. cbn. rewrite <- app_assoc. reflexivity.
Qed.

Lemma refused_generation_logs_details_witness :
  get (VObject [("details", VString "quota exceeded")]) "details"
  = Ok (VString "quota exceeded") /\
  forall E,
    log (snd (generateTreatmentPlan E
      (FetchResolves
         {| ok := false;
            json := JsonResolves
                      (VObject [("details", VString "quota exceeded")]) |})
      (VArray []) {| ui := image_selected; log := [] |}))
    = [ Fetch (generation_request (VArray []) (prompt_of []));
        ConsoleError "Error generating treatment plan:"
                     (Error "quota exceeded") ].
Proof.
  refine (conj eq_refl (fun E => _)).
  exact (f_equal (fun o => log (snd o))
    (@refused_generation_logs_details E _ (VArray []) []
       {| ok := false;
          json := JsonResolves
                    (VObject [("details", VString "quota exceeded")]) |}
       (VObject [("details", VString "quota exceeded")])
       (VString "quota exceeded") "quota exceeded"
       {| ui := image_selected; log := [] |}
       eq_refl eq_refl eq_refl eq_refl eq_refl eq_refl)).
Defined.

(** X3. [generateTreatmentPlan] keeps to itself: whatever happens, the
    component is as before, no toast is shown, nothing is rendered, and at
    most one request goes out, to the generation route with the disease
    list it was given. *)
Theorem generateTreatmentPlan_frame E g ds w :
  exists evs,
    snd (generateTreatmentPlan E g ds w)
    = {| ui := ui w; log := (log w ++ evs)%list |}
    /\ toasts evs = []
    /\ filter is_render evs = []
    /\ (requests evs = [] \/
        exists prompt, requests evs = [generation_request ds prompt]).
Proof.
  destruct (generateTreatmentPlan_spec E g ds)
    as [(plan & evs & Hrun & Hnr & Hnt & _ & Hreq)
       |(evs & Hrun & _ & descs & _ & ->)].
  - exists evs. rewrite Hrun. cbn. repeat split; auto.
    destruct Hreq as [(e & _ & ->)|(descs & _ & ->)]; eauto.
  - eexists. rewrite Hrun. cbn.
    split; [reflexivity|]. split; [reflexivity|]. split; [reflexivity|].
    right. eexists. reflexivity.
Qed.

(** When the disease list cannot be described (it is no array, or an
    entry is [null]), nothing is sent and the fallback plan comes back. *)
Lemma undescribable_diseases_fall_back E g ds e w :
  array_map (describe E) ds = Throw e ->
  generateTreatmentPlan E g ds w
  = (Fulfilled fallback_plan,
     {| ui := ui w;
        log := (log w ++
                [ConsoleError "Error generating treatment plan:" e])%list |}).
Proof.
  intros Hmap.
  unfold generateTreatmentPlan, try_catch, bind, lift.
  rewrite Hmap. reflexivity.
Qed.

(* ================================================================== *)
(** * Further properties of [handleAssess] *)

(** The toasts and requests of the events around a generation. *)
Lemma toasts_around evs (before after : list event) :
  toasts evs = [] ->
  toasts (before ++ evs ++ after) = (toasts before ++ toasts after)%list.
Proof.
  intros H. rewrite !toasts_app, H. reflexivity.
Qed.

(** X5. Once the diagnosis has delivered a disease list, and provided the
    generation call comes back, the run always ends well: the list is
    stored as it came, with the preview it was made from and a plan that
    is the service's validated answer or the fallback; nothing is loading
    any more and the one toast shown is "Assessment Complete". *)
Theorem successful_diagnosis_completes E env c image dataUrl found :
  selectedImage c = Some image ->
  reader_result env = Some dataUrl ->
  diagnosis_result env = Fulfilled found ->
  settles (generation env) = true ->
  exists plan,
    fst (run (handleAssess E env) c) = Fulfilled tt
    /\ after (handleAssess E env) c
       = {| selectedImage := Some image;
            previewUrl := previewUrl c;
            isLoading := false;
            isGeneratingTreatment := false;
            result := Some {| diseases := found; treatment_plan := plan;
                              imageUrl := previewUrl c |} |}
    /\ (plan = fallback_plan \/ validated (generation env) plan)
    /\ toasts (log (snd (run (handleAssess E env) c)))
       = [assessment_complete_toast].
Proof.
  intros Himg Hr Hfound Hback. unfold after.
  assess_cases E env c; try congruence.
  assert (found0 = found) by congruence. subst found0.
  exists plan. cbn [fst snd ui log].
  split; [reflexivity|]. split; [|split; [exact Hplan|]].
  - unfold with_isLoading, with_isGeneratingTreatment, planned, with_result;
      cbn. rewrite Himg. reflexivity.
  - rewrite toasts_around by assumption. reflexivity.
Qed.

Lemma successful_diagnosis_completes_witness :
  selectedImage image_selected = Some leaf_photo /\
  reader_result rusted_plant = Some "data:image/jpeg;base64,QUJD" /\
  diagnosis_result rusted_plant = Fulfilled (VArray [rust]) /\
  settles (generation rusted_plant) = true /\
  forall E,
    exists plan,
      fst (run (handleAssess E rusted_plant) image_selected) = Fulfilled tt
      /\ after (handleAssess E rusted_plant) image_selected
         = {| selectedImage := Some leaf_photo;
              previewUrl := previewUrl image_selected;
              isLoading := false;
              isGeneratingTreatment := false;
              result := Some {| diseases := VArray [rust];
                                treatment_plan := plan;
                                imageUrl := previewUrl image_selected |} |}
      /\ (plan = fallback_plan \/ validated (generation rusted_plant) plan)
      /\ toasts (log (snd (run (handleAssess E rusted_plant) image_selected)))
         = [assessment_complete_toast].
Proof.
  refine (conj eq_refl (conj eq_refl (conj eq_refl (conj eq_refl
            (fun E => _))))).
  exact (@successful_diagnosis_completes E rusted_plant image_selected
           leaf_photo "data:image/jpeg;base64,QUJD" (VArray [rust])
           eq_refl eq_refl eq_refl eq_refl).
Defined.

(** X6. A successful status is not enough: when the body of the diagnostic
    response is not JSON, or its data have no [health_assessment], the
    assessment is abandoned like a refused one: one request, the toast
    "Assessment Failed", the result left as it was, nothing asked of the
    generation service. *)
Theorem unusable_diagnosis_aborts E env c image dataUrl r :
  selectedImage c = Some image ->
  reader_result env = Some dataUrl ->
  diagnosis env = FetchResolves r ->
  ok r = true ->
  (exists e, json r = JsonRejects e) \/
  (exists data, json r = JsonResolves data /\
                lacks data "health_assessment" = true) ->
  fst (run (handleAssess E env) c) = Fulfilled tt
  /\ after (handleAssess E env) c = with_isLoading false c
  /\ toasts (log (snd (run (handleAssess E env) c)))
     = [assessment_failed_toast]
  /\ requests (log (snd (run (handleAssess E env) c)))
     = [diagnosis_request env (base64_of dataUrl)].
Proof.
  intros Himg Hr Hdiag Hok Hbody. unfold after.
  assert (Hthrow : exists e, diagnosis_result env = Rejected e).
  { unfold diagnosis_result. rewrite Hdiag, Hok.
    destruct Hbody as [[e ->]|(data & -> & Hl)]; [eauto|].
    unfold diagnosed_diseases.
    destruct (get_lacking data "health_assessment" Hl) as [-> | ->];
      cbn; eauto. }
  destruct Hthrow as [e He].
  assess_cases E env c; try congruence.
  assert (u = dataUrl) by congruence. subst u.
  cbn. repeat split; reflexivity.
Qed.

Lemma unusable_diagnosis_aborts_witness :
  selectedImage assessed = Some leaf_photo /\
  lacks (VObject [("error", VString "no plant found")]) "health_assessment"
  = true /\
  forall E,
    after (handleAssess E
             (environment_of
                (FetchResolves
                   {| ok := true;
                      json := JsonResolves
                        (VObject [("error", VString "no plant found")]) |})
                (FetchRejects TypeError)))
          assessed
    = with_isLoading false assessed.
Proof.
  refine (conj eq_refl (conj eq_refl (fun E => _))).
  exact (proj1 (proj2
    (@unusable_diagnosis_aborts E
       (environment_of
          (FetchResolves
             {| ok := true;
                json := JsonResolves
                  (VObject [("error", VString "no plant found")]) |})
          (FetchRejects TypeError))
       assessed leaf_photo "data:image/jpeg;base64,QUJD"
       {| ok := true;
          json := JsonResolves
            (VObject [("error", VString "no plant found")]) |}
       eq_refl eq_refl eq_refl eq_refl
       (or_intror (ex_intro _ (VObject [("error", VString "no plant found")])
                     (conj eq_refl eq_refl)))))).
Defined.

(** X7. When what the diagnosis delivers as the disease list is no array (the
    field is missing, say), the run still reports "Assessment Complete":
    it stores that value with the fallback plan and never calls the
    generation service.  The results card cannot be rendered from that
    state: mapping over the stored diseases throws. *)
Theorem missing_disease_list_completes E env c image dataUrl found :
  selectedImage c = Some image ->
  reader_result env = Some dataUrl ->
  diagnosis_result env = Fulfilled found ->
  is_array found = false ->
  result (after (handleAssess E env) c)
  = Some {| diseases := found; treatment_plan := fallback_plan;
            imageUrl := previewUrl c |}
  /\ toasts (log (snd (run (handleAssess E env) c)))
     = [assessment_complete_toast]
  /\ requests (log (snd (run (handleAssess E env) c)))
     = [diagnosis_request env (base64_of dataUrl)]
  /\ render_card E (after (handleAssess E env) c) = Throw TypeError.
Proof.
  intros Himg Hr Hfound Harr. unfold after.
  assert (Hmap : array_map (describe E) found = Throw TypeError)
    by (destruct found; try reflexivity; discriminate).
  assess_cases E env c; try congruence.
  assert (u = dataUrl) by congruence. subst u.
  assert (found0 = found) by congruence. subst found0.
  pose proof (Hrun {| ui := c; log := [] |}) as Heq.
  rewrite (@undescribable_diseases_fall_back E (generation env) found TypeError _ Hmap) in Heq.
  cbn in Heq. injection Heq as <- <-.
  cbn [fst snd ui log].
  split; [reflexivity|]. split; [reflexivity|]. split; [reflexivity|].
  unfold render_card. cbn.
  destruct found; try reflexivity; discriminate.
Qed.

Lemma missing_disease_list_completes_witness :
  selectedImage image_selected = Some leaf_photo /\
  diagnosis_result
    (environment_of
       (FetchResolves
          {| ok := true;
             json := JsonResolves
                       (VObject [("health_assessment", VObject [])]) |})
       (FetchRejects TypeError))
  = Fulfilled VUndefined /\
  is_array VUndefined = false /\
  forall E,
    requests (log (snd (run (handleAssess E
       (environment_of
          (FetchResolves
             {| ok := true;
                json := JsonResolves
                          (VObject [("health_assessment", VObject [])]) |})
          (FetchRejects TypeError))) image_selected)))
    = [diagnosis_request
         (environment_of
            (FetchResolves
               {| ok := true;
                  json := JsonResolves
                            (VObject [("health_assessment", VObject [])]) |})
            (FetchRejects TypeError))
         (base64_of "data:image/jpeg;base64,QUJD")].
Proof.
  refine (conj eq_refl (conj eq_refl (conj eq_refl (fun E => _)))).
  exact (proj1 (proj2 (proj2
    (@missing_disease_list_completes E
       (environment_of
          (FetchResolves
             {| ok := true;
                json := JsonResolves
                          (VObject [("health_assessment", VObject [])]) |})
          (FetchRejects TypeError))
       image_selected leaf_photo "data:image/jpeg;base64,QUJD" VUndefined
       eq_refl eq_refl eq_refl eq_refl)))).
Defined.

(** X8. When the file cannot be read, the handler never comes back: nothing is
    requested, no toast is shown, and the page stays loading with both
    the file input and the button disabled, so that no further action
    can be taken. *)
Theorem failed_read_leaves_page_stuck E env c image :
  selectedImage c = Some image ->
  reader_result env = None ->
  run (handleAssess E env) c
  = (Pending, {| ui := with_isLoading true c;
                 log := [Render (with_isLoading true c)] |})
  /\ input_disabled (after (handleAssess E env) c) = true
  /\ button_disabled (after (handleAssess E env) c) = true
  /\ forall c', ~ step E (after (handleAssess E env) c) c'.
Proof.
  intros Himg Hr. unfold after.
  assess_cases E env c; try congruence.
  cbn [snd ui]. split; [reflexivity|].
  assert (Hb : button_disabled (with_isLoading true c) = true)
    by (unfold button_disabled; cbn; rewrite Himg; reflexivity).
  split; [reflexivity|]. split; [exact Hb|].
  intros c' Hstep. inversion Hstep as [e0 c0 c1 Hin _|env0 c0 c1 Hbt _]; subst.
  - discriminate Hin.
  - rewrite Hb in Hbt. discriminate.
Qed.

Lemma failed_read_leaves_page_stuck_witness :
  selectedImage image_selected = Some leaf_photo /\
  forall E,
    fst (run (handleAssess E
                {| api_key := None; reader_result := None;
                   diagnosis := diagnosis_of [rust];
                   generation := FetchRejects TypeError |})
             image_selected)
    = Pending.
Proof.
  refine (conj eq_refl (fun E => _)).
  exact (f_equal fst (proj1
    (@failed_read_leaves_page_stuck E
       {| api_key := None; reader_result := None;
          diagnosis := diagnosis_of [rust];
          generation := FetchRejects TypeError |}
       image_selected leaf_photo eq_refl eq_refl))).
Defined.

(** X9. The guard at the top of [handleAssess] is out of the user's reach:
    the button that calls the handler is enabled only with an image
    selected, and then "No image selected" is never shown. *)
Theorem enabled_button_never_asks_for_image E env c :
  button_disabled c = false ->
  ~ In (Toast no_image_toast) (log (snd (run (handleAssess E env) c))).
Proof.
  unfold button_disabled. intros Hb Hin.
  assess_cases E env c; cbn [snd log] in Hin.
  - rewrite Hsel in Hb. discriminate.
  - destruct Hin as [H|[]]; discriminate.
  - cbn in Hin.
    repeat (destruct Hin as [H|Hin]; [discriminate|]). exact Hin.
  - cbn in Hin.
    repeat (destruct Hin as [H|Hin]; [discriminate|]).
    apply in_app_or in Hin. destruct Hin as [Hin|Hin].
    + exact (no_toast_in _ _ Hnt Hin).
    + cbn in Hin.
      repeat (destruct Hin as [H|Hin]; [discriminate|]). exact Hin.
  - cbn in Hin.
    repeat (destruct Hin as [H|Hin]; [discriminate|]). exact Hin.
  - subst evs. cbn in Hin.
    repeat (destruct Hin as [H|Hin]; [discriminate|]). exact Hin.
Qed.

Lemma enabled_button_never_asks_for_image_witness :
  button_disabled image_selected = false /\
  forall E,
    ~ In (Toast no_image_toast)
         (log (snd (run (handleAssess E refused_diagnosis) image_selected))).
Proof.
  refine (conj eq_refl (fun E => _)).
  exact (@enabled_button_never_asks_for_image E refused_diagnosis
           image_selected eq_refl).
Defined.

(** X10. Between two user actions the page is at rest, and stays so: choosing
    a file, and an assessment that comes back, both leave nothing loading
    and leave a stored result, if any, with the image that is selected and
    the preview it was made from. *)
Theorem page_stays_at_rest E c :
  at_rest c ->
  (forall e, at_rest (after (handleImageSelect e) c))
  /\ (forall env,
        fst (run (handleAssess E env) c) <> Pending ->
        at_rest (after (handleAssess E env) c)).
Proof.
  intros (Hl & Hg & Hres). split.
  - intros e. unfold after, run, handleImageSelect, at_rest.
    destruct (files e) as [[|f l]|]; cbn.
    + auto.
    + split; [exact Hl|]. split; [exact Hg|]. intros r H; discriminate.
    + auto.
  - intros env Hp. unfold after, at_rest.
    assess_cases E env c; cbn [fst snd ui] in *.
    + auto.
    + congruence.
    + cbn. auto.
    + cbn. split; [reflexivity|]. split; [reflexivity|].
      intros r H. injection H as <-. split; [reflexivity|exact Hsel].
    + congruence.
    + congruence.
Qed.

Lemma page_stays_at_rest_witness :
  at_rest assessed /\
  forall E,
    at_rest (after (handleImageSelect
                      {| files := Some [other_photo];
                         object_url := "blob:stem" |}) assessed)
    /\ at_rest (after (handleAssess E rusted_plant) assessed).
Proof.
  assert (H : at_rest assessed).
  { split; [reflexivity|]. split; [reflexivity|].
    intros r Hr. injection Hr as <-. split; [reflexivity|discriminate]. }
  refine (conj H (fun E => conj _ _)).
  - exact (proj1 (@page_stays_at_rest E assessed H) _).
  - apply (proj2 (@page_stays_at_rest E assessed H)). discriminate.
Defined.

Lemma split_without_comma s :
  has_comma s = false -> split_on "," s = [s].
Proof.
  induction s as [|ch s IH]; cbn; [reflexivity|].
  intros H. apply orb_false_iff in H. destruct H as [Hc Hs].
  rewrite Hc, (IH Hs). reflexivity.
Qed.

Lemma split_data_url header payload :
  has_comma header = false -> has_comma payload = false ->
  split_on "," (header ++ "," ++ payload) = [header; payload].
Proof.
  intros Hh Hp. induction header as [|ch h IH]; cbn.
  - rewrite (split_without_comma _ Hp). reflexivity.
  - cbn in Hh. apply orb_false_iff in Hh. destruct Hh as [Hc Hh'].
    specialize (IH Hh'). cbn in IH. rewrite Hc, IH. reflexivity.
Qed.

(** X11. Of a data URL [header,payload] the diagnostic request carries the
    payload alone, relabelled as a JPEG whatever the header said. *)
Theorem diagnosis_request_carries_payload E env c image header payload :
  selectedImage c = Some image ->
  reader_result env = Some (header ++ "," ++ payload) ->
  has_comma header = false ->
  has_comma payload = false ->
  hd_error (requests (log (snd (run (handleAssess E env) c))))
  = Some (diagnosis_request env (Some payload))
  /\ get (body (diagnosis_request env (Some payload))) "images"
     = Ok (VArray [VString ("data:image/jpeg;base64," ++ payload)]).
Proof.
  intros Himg Hr Hh Hp. split; [|reflexivity].
  assert (Hb : base64_of (header ++ "," ++ payload) = Some payload)
    by (unfold base64_of; rewrite (split_data_url _ _ Hh Hp); reflexivity).
  assess_cases E env c; try congruence;
    (assert (u = header ++ "," ++ payload) by congruence); subst u;
    cbn [snd log]; rewrite Hb; reflexivity.
Qed.

Lemma diagnosis_request_carries_payload_witness :
  selectedImage image_selected = Some leaf_photo /\
  reader_result
    {| api_key := Some "key";
       reader_result := Some ("data:image/png;base64" ++ "," ++ "iVBORw0KGgo=");
       diagnosis := FetchRejects TypeError;
       generation := FetchRejects TypeError |}
  = Some ("data:image/png;base64" ++ "," ++ "iVBORw0KGgo=") /\
  has_comma "data:image/png;base64" = false /\
  has_comma "iVBORw0KGgo=" = false /\
  forall E,
    hd_error (requests (log (snd (run (handleAssess E
       {| api_key := Some "key";
          reader_result := Some ("data:image/png;base64" ++ "," ++ "iVBORw0KGgo=");
          diagnosis := FetchRejects TypeError;
          generation := FetchRejects TypeError |}) image_selected))))
    = Some (diagnosis_request
              {| api_key := Some "key";
                 reader_result := Some ("data:image/png;base64" ++ "," ++ "iVBORw0KGgo=");
                 diagnosis := FetchRejects TypeError;
                 generation := FetchRejects TypeError |}
              (Some "iVBORw0KGgo=")).
Proof.
  refine (conj eq_refl (conj eq_refl (conj eq_refl (conj eq_refl
            (fun E => _))))).
  exact (proj1
    (@diagnosis_request_carries_payload E
       {| api_key := Some "key";
          reader_result := Some ("data:image/png;base64" ++ "," ++ "iVBORw0KGgo=");
          diagnosis := FetchRejects TypeError;
          generation := FetchRejects TypeError |}
       image_selected leaf_photo "data:image/png;base64" "iVBORw0KGgo="
       eq_refl eq_refl eq_refl eq_refl)).
Defined.

(* ================================================================== *)
(** * The results card *)

Lemma map_result_id (l : list value) :
  map_result (fun step : value => Ok step) l = Ok l.
Proof.
  induction l as [|x l IH]; cbn; [reflexivity|]. rewrite IH. reflexivity.
Qed.

(** X12. For a plan whose four fields are lists, the Treatment Plan tab always
    renders: the three first headings with their items, in order, and
    "Chemical Solutions" only when there is something under it. *)
Theorem listed_plan_renders E plan immediate prevention organic chemical :
  get plan "immediate_steps" = Ok (VArray immediate) ->
  get plan "long_term_prevention" = Ok (VArray prevention) ->
  get plan "organic_alternatives" = Ok (VArray organic) ->
  get plan "chemical_solutions" = Ok (VArray chemical) ->
  treatment_sections E plan
  = Ok ([ {| heading := "Immediate Steps"; items := immediate |};
          {| heading := "Long-term Prevention"; items := prevention |};
          {| heading := "Organic Alternatives"; items := organic |} ]
        ++ match chemical with
           | [] => []
           | _ => [ {| heading := "Chemical Solutions"; items := chemical |} ]
           end)%list.
Proof.
  intros H1 H2 H3 H4.
  unfold treatment_sections, section_of, array_map.
  rewrite H1, H2, H3, H4. cbn [rbind]. rewrite !map_result_id.
  cbn [rbind has_items]. destruct chemical; reflexivity.
Qed.

Lemma listed_plan_renders_witness :
  get organic_only_plan "chemical_solutions" = Ok (VArray []) /\
  forall E,
    treatment_sections E organic_only_plan
    = Ok [ {| heading := "Immediate Steps";
              items := [VString "Prune the rusted leaves"] |};
           {| heading := "Long-term Prevention";
              items := [VString "Water at the base"] |};
           {| heading := "Organic Alternatives";
              items := [VString "Sulfur dust"] |} ].
Proof.
  refine (conj eq_refl (fun E => _)).
  exact (@listed_plan_renders E organic_only_plan
           [VString "Prune the rusted leaves"] [VString "Water at the base"]
           [VString "Sulfur dust"] [] eq_refl eq_refl eq_refl eq_refl).
Defined.

(** X13. Validation lets through what the view cannot show: a plan passes it
    with any truthy value in a field, and when one of the three first
    fields is not a list the Treatment Plan tab throws. *)
Theorem validated_plan_may_not_render E plan field v :
  plan_invalid plan = Ok false ->
  In field ["immediate_steps"; "long_term_prevention"; "organic_alternatives"] ->
  get plan field = Ok v ->
  is_array v = false ->
  treatment_sections E plan = Throw TypeError.
Proof.
  intros Hv Hin Hget Harr.
  assert (Hmap : array_map (fun step : value => Ok step) v = Throw TypeError)
    by (destruct v; try reflexivity; discriminate).
  assert (Hany : forall f w, get plan f = Ok w ->
            array_map (fun step : value => Ok step) w = Throw TypeError \/
            exists l, array_map (fun step : value => Ok step) w = Ok l).
  { intros f w _. destruct w; cbn; auto. right. rewrite map_result_id. eauto. }
  pose proof (plan_invalid_false plan Hv) as Hp.
  destruct (Hp "immediate_steps") as (a & Ha & _); [cbn; auto|].
  destruct (Hp "long_term_prevention") as (b & Hb & _); [cbn; auto|].
  destruct (Hp "organic_alternatives") as (c & Hc & _); [cbn; auto 6|].
  unfold treatment_sections, section_of.
  rewrite Ha, Hb, Hc. cbn [rbind].
  destruct Hin as [<-|[<-|[<-|[]]]].
  - assert (a = v) by congruence. subst a. rewrite Hmap. reflexivity.
  - assert (b = v) by congruence. subst b.
    destruct (Hany _ _ Ha) as [-> | [l ->]]; cbn [rbind]; [reflexivity|].
    rewrite Hmap. reflexivity.
  - assert (c = v) by congruence. subst c.
    destruct (Hany _ _ Ha) as [-> | [l ->]]; cbn [rbind]; [reflexivity|].
    destruct (Hany _ _ Hb) as [-> | [l' ->]]; cbn [rbind]; [reflexivity|].
    rewrite Hmap. reflexivity.
Qed.

Lemma validated_plan_may_not_render_witness :
  plan_invalid
    (VObject [ ("immediate_steps", VString "Prune the rusted leaves");
               ("long_term_prevention", VArray []);
               ("organic_alternatives", VArray []);
               ("chemical_solutions", VArray []) ])
  = Ok false /\
  forall E,
    treatment_sections E
      (VObject [ ("immediate_steps", VString "Prune the rusted leaves");
                 ("long_term_prevention", VArray []);
                 ("organic_alternatives", VArray []);
                 ("chemical_solutions", VArray []) ])
    = Throw TypeError.
Proof.
  refine (conj eq_refl (fun E => _)).
  exact (@validated_plan_may_not_render E
           (VObject [ ("immediate_steps", VString "Prune the rusted leaves");
                      ("long_term_prevention", VArray []);
                      ("organic_alternatives", VArray []);
                      ("chemical_solutions", VArray []) ])
           "immediate_steps" (VString "Prune the rusted leaves")
           eq_refl (or_introl eq_refl) eq_refl eq_refl).
Defined.

(** The description in the prompt, from the label of the card. *)
Lemma description_from_label E d name label :
  get d "name" = Ok (VString name) ->
  confidence_label E d = Ok label ->
  describe E d = Ok (name ++ " (" ++ label ++ ")").
Proof.
  unfold confidence_label, describe. intros Hn Hl.
  rewrite Hn. cbn [rbind to_string].
  destruct (get d "probability") as [p|e]; cbn [rbind] in *; [|discriminate].
  destruct (percent E p) as [pct|e]; cbn [rbind] in *; [|discriminate].
  injection Hl as <-. rewrite !append_assoc. reflexivity.
Qed.

(** X14. The card and the prompt agree: whatever the probability is, the
    prompt describes a named disease by its name followed by the very
    label the card shows, in parentheses. *)
Theorem prompt_repeats_card_label E d name label :
  get d "name" = Ok (VString name) ->
  confidence_label E d = Ok label ->
  describe E d = Ok (name ++ " (" ++ label ++ ")").
Proof.
  exact (@description_from_label E d name label).
Qed.

Lemma prompt_repeats_card_label_witness :
  get rust "name" = Ok (VString "Rust") /\
  forall E,
    confidence_label E rust = Ok "50.0% confidence" /\
    describe E rust = Ok ("Rust" ++ " (" ++ "50.0% confidence" ++ ")").
Proof.
  refine (conj eq_refl (fun E => conj eq_refl _)).
  exact (@prompt_repeats_card_label E rust "Rust" "50.0% confidence"
           eq_refl eq_refl).
Defined.

Lemma Prim2SF_nan_times_100 : Prim2SF (PrimFloat.nan * 100) = S754_nan.
Proof. vm_compute. reflexivity. Qed.

(** X15. A disease that comes without a probability is not rejected: the card
    labels it "NaN% confidence" and the prompt says the same. *)
Theorem missing_probability_shows_NaN E d name :
  get d "name" = Ok (VString name) ->
  get d "probability" = Ok VUndefined ->
  confidence_label E d = Ok "NaN% confidence"
  /\ describe E d = Ok (name ++ " (NaN% confidence)").
Proof.
  intros Hn Hp.
  assert (Hl : confidence_label E d = Ok "NaN% confidence").
  { unfold confidence_label, percent, to_number, toFixed1.
    rewrite Hp. cbn [rbind]. rewrite Prim2SF_nan_times_100. reflexivity. }
  split; [exact Hl|].
  rewrite (@description_from_label E d name _ Hn Hl). reflexivity.
Qed.

Lemma missing_probability_shows_NaN_witness :
  get (VObject [("name", VString "Mildew")]) "probability" = Ok VUndefined /\
  forall E,
    describe E (VObject [("name", VString "Mildew")])
    = Ok "Mildew (NaN% confidence)".
Proof.
  refine (conj eq_refl (fun E => _)).
  exact (proj2 (@missing_probability_shows_NaN E
                  (VObject [("name", VString "Mildew")]) "Mildew"
                  eq_refl eq_refl)).
Defined.

(** What holds of every state the page goes through. *)
Lemma flags_kept_by_select e c c' :
  (isGeneratingTreatment c = true -> isLoading c = true) ->
  (result c <> None -> selectedImage c <> None) ->
  shows (handleImageSelect e) c c' ->
  (isGeneratingTreatment c' = true -> isLoading c' = true)
  /\ (result c' <> None -> selectedImage c' <> None).
Proof.
  unfold shows, run, handleImageSelect. intros Hg Hr.
  destruct (files e) as [[|f l]|]; cbn; try tauto.
  intros [H|[H|[H|[]]]]; injection H as <-; cbn; split; auto;
    intros; discriminate.
Qed.

Lemma flags_kept_by_assess E env c c' :
  button_disabled c = false ->
  (isGeneratingTreatment c = true -> isLoading c = true) ->
  shows (handleAssess E env) c c' ->
  (isGeneratingTreatment c' = true -> isLoading c' = true)
  /\ (result c' <> None -> selectedImage c' <> None).
Proof.
  unfold shows, button_disabled. intros Hb Hg.
  destruct (selectedImage c) as [image|] eqn:Himg; [|discriminate].
  assert (Hidle : isGeneratingTreatment c = false).
  { destruct (isGeneratingTreatment c); [|reflexivity].
    rewrite (Hg eq_refl) in Hb. discriminate. }
  assert (Hgoal : forall l g r,
            (g = true -> l = true) ->
            (isGeneratingTreatment
               {| selectedImage := selectedImage c; previewUrl := previewUrl c;
                  isLoading := l; isGeneratingTreatment := g; result := r |}
             = true ->
             isLoading
               {| selectedImage := selectedImage c; previewUrl := previewUrl c;
                  isLoading := l; isGeneratingTreatment := g; result := r |}
             = true)
            /\ (result
                  {| selectedImage := selectedImage c;
                     previewUrl := previewUrl c;
                     isLoading := l; isGeneratingTreatment := g; result := r |}
                <> None ->
                selectedImage
                  {| selectedImage := selectedImage c;
                     previewUrl := previewUrl c;
                     isLoading := l; isGeneratingTreatment := g; result := r |}
                <> None)).
  { intros l g r H. cbn. split; [exact H|]. intros _. congruence. }
  assess_cases E env c; cbn [snd log]; intros Hin.
  - destruct Hin as [H|[]]; discriminate.
  - destruct Hin as [H|[]]; injection H as <-.
    apply Hgoal; cbn; reflexivity.
  - cbn in Hin.
    destruct Hin as [H|[H|[H|[H|[H|[]]]]]]; try discriminate;
      injection H as <-; apply Hgoal; cbn; rewrite ?Hidle; intros Htrue;
      first [reflexivity | discriminate Htrue].
  - cbn in Hin.
    destruct Hin as [H|[H|[H|[H|Hin]]]]; try discriminate;
      try (injection H as <-; apply Hgoal; cbn; rewrite ?Hidle; intros Htrue;
           first [reflexivity | discriminate Htrue]).
    apply in_app_or in Hin. destruct Hin as [Hin|Hin].
    + exfalso. exact (no_render_in _ _ Hnr Hin).
    + cbn in Hin.
      destruct Hin as [H|[H|[H|[H|[]]]]]; try discriminate;
        injection H as <-; apply Hgoal; cbn; rewrite ?Hidle; intros Htrue;
        first [reflexivity | discriminate Htrue].
  - cbn in Hin.
    destruct Hin as [H|[H|[]]]; try discriminate.
    injection H as <-. apply Hgoal; cbn; reflexivity.
  - subst evs. cbn in Hin.
    destruct Hin as [H|[H|[H|[H|[H|[]]]]]]; try discriminate;
      injection H as <-; apply Hgoal; cbn; rewrite ?Hidle; intros Htrue;
      first [reflexivity | discriminate Htrue].
Qed.

(** X16. In every state the page goes through, the treatment placeholders are
    on only while an assessment is loading, and a result is stored only
    with an image selected. *)
Theorem reachable_flags_agree E c :
  reachable E c ->
  (isGeneratingTreatment c = true -> isLoading c = true)
  /\ (result c <> None -> selectedImage c <> None).
Proof.
  induction 1 as [|c c' Hreach [IHg IHr] Hstep].
  - cbn. split; [discriminate|congruence].
  - destruct Hstep as [e c c' _ Hshows|env c c' Hb Hshows].
    + eapply flags_kept_by_select; eassumption.
    + eapply flags_kept_by_assess; eassumption.
Qed.

Lemma reachable_flags_agree_witness :
  result assessed <> None /\
  forall E,
    reachable E assessed /\ selectedImage assessed <> None.
Proof.
  assert (H : result assessed <> None) by discriminate.
  refine (conj H (fun E => conj (assessed_reachable E) _)).
  exact (proj2 (@reachable_flags_agree E assessed (assessed_reachable E)) H).
Defined.

Lemma null_entry_throws E ds :
  In VNull ds -> exists e, map_result (describe E) ds = Throw e.
Proof.
  induction ds as [|d ds IH]; intros Hin; [destruct Hin|].
  cbn [map_result].
  destruct Hin as [->|Hin].
  - exists TypeError. reflexivity.
  - destruct (describe E d) as [text|e]; cbn [rbind]; [|eauto].
    destruct (IH Hin) as [e ->]. cbn [rbind]. eauto.
Qed.

(** X4. One [null] among the diseases is enough to keep the generation
    service out of it: no request is sent, the error is logged and the
    fallback plan is returned. *)
Theorem null_entry_suppresses_request E g ds w :
  In VNull ds ->
  exists e,
    generateTreatmentPlan E g (VArray ds) w
    = (Fulfilled fallback_plan,
       {| ui := ui w;
          log := (log w ++
                  [ConsoleError "Error generating treatment plan:" e])%list |}).
Proof.
  intros Hin. destruct (null_entry_throws E ds Hin) as [e He].
  exists e.
  apply (@undescribable_diseases_fall_back E g (VArray ds) e w). exact He.
Qed.

Lemma null_entry_suppresses_request_witness :
  In VNull [rust; VNull] /\
  forall E,
    requests (log (snd (generateTreatmentPlan E
                          (generation rusted_plant) (VArray [rust; VNull])
                          {| ui := image_selected; log := [] |})))
    = [].
Proof.
  assert (H : In VNull [rust; VNull]) by (right; left; reflexivity).
  refine (conj H (fun E => _)).
  destruct (@null_entry_suppresses_request E (generation rusted_plant)
              [rust; VNull] {| ui := image_selected; log := [] |} H)
    as [e He].
  rewrite He. reflexivity.
Defined.
